(** * WayFinder: the travel-planning flow of the map screen

    A shallow embedding of the state handling in
    [src/screens/map-screen/map-screen.component.tsx] (the [MapScreen]
    component) and of the directions omnibox
    ([components/search/omnibox-directions.component], [OmniboxDirections]).

    React state slots become the fields of a record, a state setter becomes a
    function on that record, and an event handler becomes a function that
    takes the values its closure captured at render time and transforms the
    current state.  The asynchronous current-location lookup is a list of
    outstanding promises, each remembering the render it was issued from. *)

From Stdlib Require Import PrimFloat.
From stdpp Require Import base option list strings.

Local Open Scope string_scope.

(** ** Values of [types/main] *)

(** A slot that holds an object, [null] or [undefined]. *)
Inductive Nullable (A : Type) : Type :=
  | undefined
  | null
  | value (a : A).
Arguments undefined {A}.
Arguments null {A}.
Arguments value {A} a.

(** JavaScript truthiness of such a slot: [if (x)], [x && ...]. *)
Definition truthy {A} (x : Nullable A) : bool :=
  match x with value _ => true | _ => false end.

(** A parameter typed [T | null]. *)
Definition ofNull {A} (x : option A) : Nullable A :=
  match x with Some a => value a | None => null end.

Inductive TravelState := NONE | PLANNING | TRAVELLING.

Global Instance TravelState_eq_dec : EqDecision TravelState.
Proof. solve_decision. Defined.

(** Modelled from the spec: the enumeration [TravelMode] is declared in
    [types/main], which is not among the sources.  The omnibox names
    [ACCESSIBLE] and [WALKING]; the spec gives the closed set as car,
    accessible, walking, bus and a shuttle-like option. *)
Inductive TravelMode := CAR | ACCESSIBLE | WALKING | BUS | SHUTTLE.

Global Instance TravelMode_eq_dec : EqDecision TravelMode.
Proof. solve_decision. Defined.

(** Coordinates are JavaScript numbers, that is binary64 floats. *)
Record Location := { latitude : float; longitude : float }.

Definition BuildingId := string.

(** Milliseconds since the epoch, the time value inside a [Date]. *)
Definition Date := Z.

Module Building.
Record t := {
  id : BuildingId;
  displayName : string;
  boundingBox : list Location }.
End Building.

(** Modelled from the spec: the free-form endpoint record (a point of
    interest or a search result) is declared in [types/main]; the spec
    describes it as a record with a display name and coordinates, built by
    [locationToSearchResult(label, label, coordinates)]. *)
Module POI.
Record t := {
  name : string;
  displayName : string;
  coordinates : Location }.
End POI.

(** A trip endpoint: a building or a free-form record. *)
Inductive MarkerLocation :=
  | ofBuilding (b : Building.t)
  | ofPOI (p : POI.t).

(** The property access [location.displayName]. *)
Definition displayName (m : MarkerLocation) : string :=
  match m with
  | ofBuilding b => Building.displayName b
  | ofPOI p => POI.displayName p
  end.

(** Modelled from the spec: [UtilityService.locationToSearchResult] is not
    among the sources; it packs two labels and a coordinate into an
    endpoint record. *)
Definition locationToSearchResult (name display : string)
    (coordinates : Location) : MarkerLocation :=
  ofPOI {| POI.name := name; POI.displayName := display;
           POI.coordinates := coordinates |}.

(** ** External collaborators

    The building registry and [buildingToMarker] ([constants]),
    [isPointInPolygon] (geolib), the display texts ([styles]), the platform
    name and the clock-time formatter are not part of the sources: every
    result below holds for all of them. *)
Class Externals := {
  Buildings : list Building.t;
  isPointInPolygon : Location -> list Location -> bool;
  buildingToMarker : Building.t -> MarkerLocation;
  FETCHING_CURRENT_LOCATION_DISPLAY_TEXT : string;
  CURRENT_LOCATION_DISPLAY_TEXT : string;
  PlatformOS : string;
  formatTime : Date -> string }.

(** ** State of [MapScreen] *)

(** What a handler reads from the render that created it.  The handlers of
    [MapScreen] read [travelState] and [endLocationFocused]. *)
Module Render.
Record t := {
  travelState : TravelState;
  endLocationFocused : bool }.
End Render.

Record Screen := {
  showBuildingInfo : bool;
  tappedBuilding : option BuildingId;
  currentLocation : option Location;
  endLocation : Nullable MarkerLocation;
  startLocation : Nullable MarkerLocation;
  endLocationFocused : bool;
  travelState : TravelState;
  startLocationDisplay : string;
  (** promises of [getCurrentLocationAsync] not yet settled, oldest first *)
  pendingLookups : list Render.t }.

(** The [useState] initial values. *)
Definition initialScreen : Screen :=
  {| showBuildingInfo := false;
     tappedBuilding := None;
     currentLocation := None;
     endLocation := undefined;
     startLocation := null;
     endLocationFocused := true;
     travelState := NONE;
     startLocationDisplay := "";
     pendingLookups := [] |}.

(** The closure values of the render showing state [s]. *)
Definition rendered (s : Screen) : Render.t :=
  {| Render.travelState := travelState s;
     Render.endLocationFocused := endLocationFocused s |}.

(** *** State setters *)

Definition setShowBuildingInfo (v : bool) (s : Screen) : Screen :=
  {| showBuildingInfo := v;
     tappedBuilding := tappedBuilding s;
     currentLocation := currentLocation s;
     endLocation := endLocation s;
     startLocation := startLocation s;
     endLocationFocused := endLocationFocused s;
     travelState := travelState s;
     startLocationDisplay := startLocationDisplay s;
     pendingLookups := pendingLookups s |}.

Definition setTappedBuilding (v : option BuildingId) (s : Screen) : Screen :=
  {| showBuildingInfo := showBuildingInfo s;
     tappedBuilding := v;
     currentLocation := currentLocation s;
     endLocation := endLocation s;
     startLocation := startLocation s;
     endLocationFocused := endLocationFocused s;
     travelState := travelState s;
     startLocationDisplay := startLocationDisplay s;
     pendingLookups := pendingLookups s |}.

Definition setCurrentLocation (v : option Location) (s : Screen) : Screen :=
  {| showBuildingInfo := showBuildingInfo s;
     tappedBuilding := tappedBuilding s;
     currentLocation := v;
     endLocation := endLocation s;
     startLocation := startLocation s;
     endLocationFocused := endLocationFocused s;
     travelState := travelState s;
     startLocationDisplay := startLocationDisplay s;
     pendingLookups := pendingLookups s |}.

Definition setEndLocation (v : Nullable MarkerLocation) (s : Screen) : Screen :=
  {| showBuildingInfo := showBuildingInfo s;
     tappedBuilding := tappedBuilding s;
     currentLocation := currentLocation s;
     endLocation := v;
     startLocation := startLocation s;
     endLocationFocused := endLocationFocused s;
     travelState := travelState s;
     startLocationDisplay := startLocationDisplay s;
     pendingLookups := pendingLookups s |}.

Definition setStartLocation (v : Nullable MarkerLocation) (s : Screen)
  : Screen :=
  {| showBuildingInfo := showBuildingInfo s;
     tappedBuilding := tappedBuilding s;
     currentLocation := currentLocation s;
     endLocation := endLocation s;
     startLocation := v;
     endLocationFocused := endLocationFocused s;
     travelState := travelState s;
     startLocationDisplay := startLocationDisplay s;
     pendingLookups := pendingLookups s |}.

Definition setEndLocationFocused (v : bool) (s : Screen) : Screen :=
  {| showBuildingInfo := showBuildingInfo s;
     tappedBuilding := tappedBuilding s;
     currentLocation := currentLocation s;
     endLocation := endLocation s;
     startLocation := startLocation s;
     endLocationFocused := v;
     travelState := travelState s;
     startLocationDisplay := startLocationDisplay s;
     pendingLookups := pendingLookups s |}.

Definition setTravelState (v : TravelState) (s : Screen) : Screen :=
  {| showBuildingInfo := showBuildingInfo s;
     tappedBuilding := tappedBuilding s;
     currentLocation := currentLocation s;
     endLocation := endLocation s;
     startLocation := startLocation s;
     endLocationFocused := endLocationFocused s;
     travelState := v;
     startLocationDisplay := startLocationDisplay s;
     pendingLookups := pendingLookups s |}.

Definition setStartLocationDisplay (v : string) (s : Screen) : Screen :=
  {| showBuildingInfo := showBuildingInfo s;
     tappedBuilding := tappedBuilding s;
     currentLocation := currentLocation s;
     endLocation := endLocation s;
     startLocation := startLocation s;
     endLocationFocused := endLocationFocused s;
     travelState := travelState s;
     startLocationDisplay := v;
     pendingLookups := pendingLookups s |}.

(** Bookkeeping of the promises; not a React state slot. *)
Definition setPendingLookups (v : list Render.t) (s : Screen) : Screen :=
  {| showBuildingInfo := showBuildingInfo s;
     tappedBuilding := tappedBuilding s;
     currentLocation := currentLocation s;
     endLocation := endLocation s;
     startLocation := startLocation s;
     endLocationFocused := endLocationFocused s;
     travelState := travelState s;
     startLocationDisplay := startLocationDisplay s;
     pendingLookups := v |}.

(** A handler body is a sequence of state updates. *)
Definition Update := Screen -> Screen.

Definition skip : Update := fun s => s.

Definition seq (f g : Update) : Update := fun s => g (f s).

Declare Scope update_scope.
Delimit Scope update_scope with upd.
Bind Scope update_scope with Update.
Notation "f ;; g" := (seq f g)
  (at level 100, g at level 200, right associativity) : update_scope.
Local Open Scope update_scope.

(** ** Handlers of [MapScreen] *)

Section MapScreen.
Context {E : Externals}.

(** [setBuildingMarkerLocation]: the guard reads the closure. *)
Definition setBuildingMarkerLocation (r : Render.t)
    (building : option Building.t) : Update :=
  match Render.travelState r with
  | PLANNING =>
      if Render.endLocationFocused r
      then setEndLocation (ofNull (ofBuilding <$> building))
      else setStartLocation (ofNull (ofBuilding <$> building))
  | _ => skip
  end.

(** [onBuildingTap] *)
Definition onBuildingTap (r : Render.t) (tapped : Building.t) : Update :=
  (match Render.travelState r with
   | NONE => setShowBuildingInfo true
   | _ => skip
   end) ;;
  setTappedBuilding (Some (Building.id tapped)) ;;
  setBuildingMarkerLocation r (Some tapped).

(** [onClosePanel] *)
Definition onClosePanel : Update :=
  setShowBuildingInfo false ;; setTappedBuilding None.

(** [setStartLocationBuilding]: [Buildings.find] returns the first
    building whose polygon passes the test. *)
Definition setStartLocationBuilding (r : Render.t) (coordinates : Location)
    : Update :=
  match List.find (fun building =>
          isPointInPolygon coordinates (Building.boundingBox building))
          Buildings with
  | Some isInBuilding =>
      onBuildingTap r isInBuilding ;;
      setStartLocation (value (buildingToMarker isInBuilding))
  | None =>
      setStartLocation (value
        (locationToSearchResult CURRENT_LOCATION_DISPLAY_TEXT
           CURRENT_LOCATION_DISPLAY_TEXT coordinates))
  end.

(** [setUserCurrentLocation], the synchronous part: the placeholder text
    is shown and the promise is created by the render [r]. *)
Definition setUserCurrentLocation (r : Render.t) : Update :=
  setStartLocationDisplay FETCHING_CURRENT_LOCATION_DISPLAY_TEXT ;;
  (fun s => setPendingLookups (pendingLookups s ++ [r]) s).

(** The [.then] callback of the promise, run to its end.  The renders it
    commits on the way are those of [onLocationResolvedSetters]. *)
Definition onLocationResolved (r : Render.t) (coords : Location) : Update :=
  setCurrentLocation (Some coords) ;;
  setStartLocationBuilding r coords.

(** The [.catch] callback of the promise. *)
Definition onLocationRejected (r : Render.t) : Update :=
  setStartLocationDisplay "".

(** [onPOIMarkerPress] *)
Definition onPOIMarkerPress (r : Render.t) (poi : option POI.t) : Update :=
  if Render.endLocationFocused r then
    setTravelState PLANNING ;;
    (match Render.travelState r with
     | NONE => setUserCurrentLocation r
     | _ => skip
     end) ;;
    setEndLocation (ofNull (ofPOI <$> poi))
  else
    setStartLocation (ofNull (ofPOI <$> poi)).

(** *** What is rendered *)

(** [OmniboxDirections] is rendered in PLANNING and TRAVELLING. *)
Definition omniboxShown (s : Screen) : bool :=
  match travelState s with
  | PLANNING | TRAVELLING => true
  | NONE => false
  end.

(** [Search], [CampusToggle] and [LocationButton] are rendered when
    [travelState === TravelState.NONE]. *)
Definition searchShown (s : Screen) : bool :=
  bool_decide (travelState s = NONE).

(** So is [BuildingInformation]. *)
Definition panelRendered (s : Screen) : bool :=
  bool_decide (travelState s = NONE).

(** Modelled from the spec: the body of [BuildingInformation] is not among
    the sources; [showBuildingInfo] is its visibility flag.  The panel is
    on screen when it is rendered and the flag is set. *)
Definition panelVisible (s : Screen) : bool :=
  panelRendered s && showBuildingInfo s.

End MapScreen.

(** ** The resolution order of the start endpoint, as the spec words it *)

Section StartEndpointSpec.
Context {E : Externals}.

(** The containment test of [setStartLocationBuilding] for one building. *)
Definition contains (coordinates : Location) (building : Building.t) : bool :=
  isPointInPolygon coordinates (Building.boundingBox building).

(** The generic current-location marker. *)
Definition currentLocationMarker (coordinates : Location) : MarkerLocation :=
  locationToSearchResult CURRENT_LOCATION_DISPLAY_TEXT
    CURRENT_LOCATION_DISPLAY_TEXT coordinates.

(** The resolution order in the words of the spec: the buildings that
    contain the coordinate, in registry order; the first one wins, and
    without any the generic marker is used. *)
Definition resolveStart (coordinates : Location) : MarkerLocation :=
  match filter (fun b => contains coordinates b = true) Buildings with
  | first :: _ => buildingToMarker first
  | [] => currentLocationMarker coordinates
  end.

End StartEndpointSpec.

(** ** The directions omnibox *)

(** A render either returns or throws. *)
Inductive JsError := TypeError.

Inductive Completion (A : Type) : Type :=
  | Normal (a : A)
  | Throw (e : JsError).
Arguments Normal {A} a.
Arguments Throw {A} e.

(** The unguarded property read [x.displayName]: reading a property of
    [null] or [undefined] throws a TypeError. *)
Definition readDisplayName (x : Nullable MarkerLocation) : Completion string :=
  match x with
  | value m => Normal (displayName m)
  | null | undefined => Throw TypeError
  end.

(** Local state of [OmniboxDirections]. *)
Record Omnibox := {
  endLocationDisplay : string;
  startLocationSearchResults : option (list POI.t);
  endLocationSearchResults : option (list POI.t);
  date : Date;
  dateIsNow : bool;
  showTimePicker : bool }.

(** The [React.useState] calls at the top of [OmniboxDirections].  Their
    arguments are ordinary expressions, so [endLocation.displayName] and
    [new Date()] (read as [now]) are evaluated in every render; the values
    become the state only when the component mounts, that is when it has no
    state yet ([mounted = None]). *)
Definition useOmniboxState (now : Date) (props : Screen)
    (mounted : option Omnibox) : Completion Omnibox :=
  match readDisplayName (endLocation props) with
  | Throw e => Throw e
  | Normal display =>
      Normal (match mounted with
              | Some o => o
              | None =>
                  {| endLocationDisplay := display;
                     startLocationSearchResults := None;
                     endLocationSearchResults := None;
                     date := now;
                     dateIsNow := true;
                     showTimePicker := false |}
              end)
  end.

(** The first render of the component. *)
Definition mountOmniboxDirections (now : Date) (props : Screen)
  : Completion Omnibox :=
  useOmniboxState now props None.

(** The buttons of the [travelModeSwitcher] row, left to right. *)
Inductive TravelModeButton :=
  | carButton
  | accessibilityButton
  | walkingButton
  | busButton
  | shuttleButton.

(** The button that carries the icon of a travel mode. *)
Definition buttonOf (mode : TravelMode) : TravelModeButton :=
  match mode with
  | CAR => carButton
  | ACCESSIBLE => accessibilityButton
  | WALKING => walkingButton
  | BUS => busButton
  | SHUTTLE => shuttleButton
  end.

(** [onPressOut] of a button: the argument it passes to the [setTravelMode]
    prop, if it has a handler at all. *)
Definition onPressOut (button : TravelModeButton) : option TravelMode :=
  match button with
  | accessibilityButton => Some ACCESSIBLE
  | walkingButton => Some WALKING
  | carButton | busButton | shuttleButton => None
  end.

(** Whether a button is drawn with [styles.travelModeButtonSelected] when
    the [travelMode] prop is [travelMode]. *)
Definition highlighted (travelMode : TravelMode) (button : TravelModeButton)
  : bool :=
  match button with
  | accessibilityButton => bool_decide (travelMode = ACCESSIBLE)
  | walkingButton => bool_decide (travelMode = WALKING)
  | carButton | busButton | shuttleButton => false
  end.

Section OmniboxDirections.
Context {E : Externals}.

(** [onDateChange]; [now] is the reading of [new Date()], [pickedDate] is
    [None] for a [null] or [undefined] pick. *)
Definition onDateChange (now : Date) (pickedDate : option Date) (o : Omnibox)
  : Omnibox :=
  let ios := String.eqb PlatformOS "ios" in
  match pickedDate with
  | None =>
      {| endLocationDisplay := endLocationDisplay o;
         startLocationSearchResults := startLocationSearchResults o;
         endLocationSearchResults := endLocationSearchResults o;
         date := now;
         dateIsNow := true;
         showTimePicker := ios |}
  | Some picked =>
      {| endLocationDisplay := endLocationDisplay o;
         startLocationSearchResults := startLocationSearchResults o;
         endLocationSearchResults := endLocationSearchResults o;
         date := picked;
         dateIsNow := false;
         showTimePicker := ios |}
  end.

(** Modelled from the spec: [UtilityService.showPickedTime] is not among
    the sources; the displayed departure time is "now" while the flag is
    set and the picked clock time otherwise. *)
Definition showPickedTime (d : Date) (isNow : bool) : string :=
  if isNow then "now" else formatTime d.

(** The text of the time-picker button. *)
Definition departureText (o : Omnibox) : string :=
  "DEPART " ++ showPickedTime (date o) (dateIsNow o).

(** [onPress] of the back arrow. *)
Definition backArrowOnPress : Update :=
  setEndLocation null ;;
  setStartLocation null ;;
  setEndLocationFocused true ;;
  setTravelState NONE.

(** [onFocus] of the two text inputs. *)
Definition startLocationOnFocus : Update := setEndLocationFocused false.

Definition endLocationOnFocus : Update := setEndLocationFocused true.

(** The [setLocation] prop handed to [Autocomplete], chosen at render time
    from the [endLocationFocused] prop. *)
Definition autocompleteSetLocation (r : Render.t) (selected : MarkerLocation)
  : Update :=
  if Render.endLocationFocused r
  then setEndLocation (value selected)
  else setStartLocation (value selected).

(** The effect on [startLocation], as far as it touches the state of the
    screen. *)
Definition startLocationEffect : Update := fun s =>
  match startLocation s with
  | value m => setStartLocationDisplay (displayName m) s
  | null | undefined =>
      if String.eqb (startLocationDisplay s)
           FETCHING_CURRENT_LOCATION_DISPLAY_TEXT
      then s
      else setStartLocationDisplay "" s
  end.

(** [onBlur] of the start input, as far as it touches the state of the
    screen. *)
Definition startLocationOnBlur : Update := fun s =>
  match startLocation s with
  | value m => setStartLocationDisplay (displayName m) s
  | null | undefined => s
  end.

(** The [StartTravel] button is rendered when both endpoint props are set
    and the [travelState] prop of the omnibox, [undefined] when the parent
    passes none, is PLANNING. *)
Definition startTravelShown (travelState : Nullable TravelState) (s : Screen)
  : bool :=
  truthy (startLocation s) && truthy (endLocation s)
  && match travelState with
     | value PLANNING => true
     | _ => false
     end.

(** Pressing a button of the [travelModeSwitcher]: a button without a
    handler does nothing; a button with one calls the [setTravelMode] prop
    with its mode, and calling a prop that was not passed throws. *)
Definition pressTravelModeButton (setTravelModePassed : bool)
    (button : TravelModeButton) : Completion (option TravelMode) :=
  match onPressOut button with
  | None => Normal None
  | Some mode =>
      if setTravelModePassed then Normal (Some mode) else Throw TypeError
  end.

(** The highlight of a button for a [travelMode] prop that may be
    [undefined]: [undefined === TravelMode.X] is false. *)
Definition highlightedWith (travelMode : Nullable TravelMode)
    (button : TravelModeButton) : bool :=
  match travelMode with
  | value mode => highlighted mode button
  | null | undefined => false
  end.

End OmniboxDirections.

(** ** The event loop

    One step is one user gesture, one effect or one settled promise: the
    handler runs on the current state, a gesture with the closure of the
    current render and a promise callback with the closure of the render
    that issued the lookup; then React renders the new state.  Gestures
    that only touch the local state of the omnibox (typing in the end field,
    the time picker) are not events of the screen. *)

Inductive Event :=
  | BuildingTap (b : Building.t)
  | POIMarkerPress (poi : option POI.t)
  | ClosePanelPress
  | LocationButtonPress
  | SearchSelect (selected : MarkerLocation)
  | BackArrowPress
  | StartFieldFocus
  | EndFieldFocus
  | StartFieldBlur
  | StartFieldChangeText (inputText : string)
  | AutocompleteSelect (selected : MarkerLocation)
  | StartLocationChanged
  | StartTravelPress
  | LocationResolved (n : nat) (coords : Location)
  | LocationRejected (n : nat).

Section EventLoop.
Context {E : Externals}.

(** Modelled from the spec: [Search] is not among the sources.  It receives
    [setEndLocation], [setTravelState] and [setUserCurrentLocation];
    selecting a destination moves to PLANNING and triggers the lookup that
    seeds the start point. *)
Definition searchOnSelect (r : Render.t) (selected : MarkerLocation) : Update :=
  setEndLocation (value selected) ;;
  setTravelState PLANNING ;;
  setUserCurrentLocation r.

(** Modelled from the spec: [StartTravel] is not among the sources.  It
    receives [setTravelState]; confirming moves to TRAVELLING. *)
Definition startTravelOnPress : Update := setTravelState TRAVELLING.

(** Modelled from the spec: [UtilityService.updateSearchResults] is not among
    the sources; per keystroke it hands the typed text to the display-text
    setter it was given. *)
Definition startLocationOnChangeText (inputText : string) : Update :=
  setStartLocationDisplay inputText.

(** [MapScreen] renders [OmniboxDirections] with the props listed at
    map-screen.component.tsx:251-263.  [travelState], [travelMode],
    [setTravelMode] and [onStartTravelPlan] are not among them: inside the
    omnibox they are [undefined]. *)
Definition travelStateProp (s : Screen) : Nullable TravelState := undefined.

Definition travelModeProp (s : Screen) : Nullable TravelMode := undefined.

Definition setTravelModePassed : bool := false.

(** The handler an event runs, or [None] when its control is not on screen
    (or the promise does not exist).  [Search], [LocationButton], which is
    handed [setUserCurrentLocation], and the information panel are rendered
    in state NONE, the omnibox and its controls in PLANNING and
    TRAVELLING. *)
Definition handler (s : Screen) (e : Event) : option Update :=
  let r := rendered s in
  match e with
  | BuildingTap b => Some (onBuildingTap r b)
  | POIMarkerPress poi => Some (onPOIMarkerPress r poi)
  | ClosePanelPress =>
      if panelRendered s then Some onClosePanel else None
  | LocationButtonPress =>
      if searchShown s then Some (setUserCurrentLocation r) else None
  | SearchSelect selected =>
      if searchShown s then Some (searchOnSelect r selected) else None
  | BackArrowPress =>
      if omniboxShown s then Some backArrowOnPress else None
  | StartFieldFocus =>
      if omniboxShown s then Some startLocationOnFocus else None
  | EndFieldFocus =>
      if omniboxShown s then Some endLocationOnFocus else None
  | StartFieldBlur =>
      if omniboxShown s then Some startLocationOnBlur else None
  | StartFieldChangeText inputText =>
      if omniboxShown s then Some (startLocationOnChangeText inputText)
      else None
  | AutocompleteSelect selected =>
      if omniboxShown s then Some (autocompleteSetLocation r selected)
      else None
  | StartLocationChanged =>
      if omniboxShown s then Some startLocationEffect else None
  | StartTravelPress =>
      if omniboxShown s && startTravelShown (travelStateProp s) s
      then Some startTravelOnPress
      else None
  | LocationResolved n coords =>
      match pendingLookups s !! n with
      | Some issuedBy =>
          Some (setPendingLookups (delete n (pendingLookups s)) ;;
                onLocationResolved issuedBy coords)
      | None => None
      end
  | LocationRejected n =>
      match pendingLookups s !! n with
      | Some issuedBy =>
          Some (setPendingLookups (delete n (pendingLookups s)) ;;
                onLocationRejected issuedBy)
      | None => None
      end
  end.

(** Rendering a state: when the omnibox is shown its body runs, and with it
    the unguarded read of [endLocation.displayName]. *)
Definition render (s : Screen) : Completion Screen :=
  if omniboxShown s then
    match readDisplayName (endLocation s) with
    | Throw e => Throw e
    | Normal _ => Normal s
    end
  else Normal s.

(** The state an event leaves when its handler has run. *)
Definition dispatch (s : Screen) (e : Event) : option Screen :=
  match handler s e with
  | Some update => Some (update s)
  | None => None
  end.

(** One step: the handler runs, then the new state is rendered. *)
Definition step (s : Screen) (e : Event) : option (Completion Screen) :=
  match dispatch s e with
  | Some s' => Some (render s')
  | None => None
  end.

(** The states the screen is in between events: what is on screen when a
    handler, an effect or a promise callback has run to its end. *)
Inductive reachable : Screen -> Prop :=
  | reachable_initial : reachable initialScreen
  | reachable_step s e s' :
      reachable s -> step s e = Some (Normal s') -> reachable s'.

(** The setters the [.then] callback calls, in the order of the calls made
    by [setCurrentLocation], [setStartLocationBuilding], [onBuildingTap] and
    [setBuildingMarkerLocation].  A promise callback runs outside the event
    handlers of React, so nothing batches these calls: each one commits a
    render of its own before the next one runs. *)
Definition onLocationResolvedSetters (r : Render.t) (coords : Location)
  : list Update :=
  setCurrentLocation (Some coords)
  :: match List.find (fun building =>
              isPointInPolygon coords (Building.boundingBox building))
             Buildings with
     | Some isInBuilding =>
         (match Render.travelState r with
          | NONE => [setShowBuildingInfo true]
          | _ => []
          end)
         ++ [setTappedBuilding (Some (Building.id isInBuilding))]
         ++ (match Render.travelState r with
             | PLANNING =>
                 [if Render.endLocationFocused r
                  then setEndLocation (value (ofBuilding isInBuilding))
                  else setStartLocation (value (ofBuilding isInBuilding))]
             | _ => []
             end)
         ++ [setStartLocation (value (buildingToMarker isInBuilding))]
     | None =>
         [setStartLocation (value
            (locationToSearchResult CURRENT_LOCATION_DISPLAY_TEXT
               CURRENT_LOCATION_DISPLAY_TEXT coords))]
     end.

(** The states committed one after the other when [setters] run on [s]. *)
Fixpoint commits (setters : list Update) (s : Screen) : list Screen :=
  match setters with
  | [] => []
  | set :: rest => set s :: commits rest (set s)
  end.

(** The states React renders: the states between events and the states
    committed while the callback of a resolved lookup runs. *)
Inductive committed : Screen -> Prop :=
  | committed_reachable s : reachable s -> committed s
  | committed_resolving s n r coords s' :
      reachable s -> pendingLookups s !! n = Some r ->
      In s' (commits (onLocationResolvedSetters r coords)
               (setPendingLookups (delete n (pendingLookups s)) s)) ->
      committed s'.

(** A run of events, as long as every one of them can occur and every
    render returns. *)
Fixpoint runEvents (s : Screen) (events : list Event) : option Screen :=
  match events with
  | [] => Some s
  | e :: rest =>
      match step s e with
      | Some (Normal s') => runEvents s' rest
      | Some (Throw _) | None => None
      end
  end.

(** How one step moves the travel state and the focus. *)
Inductive flowChange (s : Screen) (e : Event) (s' : Screen) : Prop :=
  | flow_back :
      e = BackArrowPress -> omniboxShown s = true ->
      travelState s' = NONE -> endLocationFocused s' = true ->
      flowChange s e s'
  | flow_focus_start :
      e = StartFieldFocus -> omniboxShown s = true ->
      travelState s' = travelState s -> endLocationFocused s' = false ->
      flowChange s e s'
  | flow_focus_end :
      e = EndFieldFocus -> omniboxShown s = true ->
      travelState s' = travelState s -> endLocationFocused s' = true ->
      flowChange s e s'
  | flow_plan :
      travelState s' = PLANNING ->
      endLocationFocused s' = endLocationFocused s ->
      flowChange s e s'
  | flow_travel :
      e = StartTravelPress -> travelState s = PLANNING ->
      travelState s' = TRAVELLING ->
      endLocationFocused s' = endLocationFocused s ->
      flowChange s e s'
  | flow_same :
      travelState s' = travelState s ->
      endLocationFocused s' = endLocationFocused s ->
      flowChange s e s'.

End EventLoop.

(** ** Vocabulary of the properties *)

(** A selection [v] made in state [s] went to the focused endpoint, and
    only to it, in the state [s'] that follows. *)
Definition appliedToFocused (s s' : Screen) (v : Nullable MarkerLocation)
  : Prop :=
  if endLocationFocused s
  then endLocation s' = v /\ startLocation s' = startLocation s
  else startLocation s' = v /\ endLocation s' = endLocation s.

(** ** Indoor floors

    The [indoorInformation] slot of [MapScreen] and its two handlers.  The
    slot is independent of the slots of [Screen]. *)

Module IndoorFloor.
Record t := {
  level : float;
  index : float }.
End IndoorFloor.

(** One entry of [IndoorBuilding.levels] in the event of the map
    provider. *)
Module IndoorLevel.
Record t := {
  name : string;
  index : float }.
End IndoorLevel.

(** [event.nativeEvent.IndoorBuilding] *)
Record IndoorBuilding := {
  levels : list IndoorLevel.t;
  activeLevelIndex : float }.

Record IndoorInformation := {
  currentFloor : Nullable IndoorFloor.t;
  floors : list IndoorFloor.t }.

(** The [useState] initial value. *)
Definition initialIndoorInformation : IndoorInformation :=
  {| currentFloor := null; floors := [] |}.

(** [floors.filter((floor) => floor.index === index)[0]]: the first floor
    with that index, [undefined] when the filtered array is empty.  [===]
    on numbers is the IEEE comparison. *)
Definition floorWithIndex (index : float) (floors : list IndoorFloor.t)
  : Nullable IndoorFloor.t :=
  match List.filter
          (fun floor => PrimFloat.eqb (IndoorFloor.index floor) index)
          floors with
  | floor :: _ => value floor
  | [] => undefined
  end.

Section Indoor.
(** The conversion [Number(floor.name)] of the language. *)
Variable Number : string -> float.

(** [onIndoorViewEntry]: the value handed to [setIndoorInformation]. *)
Definition onIndoorViewEntry (buildingInfo : IndoorBuilding)
  : IndoorInformation :=
  let floors :=
    map (fun floor =>
           {| IndoorFloor.level := Number (IndoorLevel.name floor);
              IndoorFloor.index := IndoorLevel.index floor |})
        (levels buildingInfo) in
  let currentFloor :=
    if Nat.ltb 0 (length floors)
    then floorWithIndex (activeLevelIndex buildingInfo) floors
    else null in
  {| currentFloor := currentFloor; floors := floors |}.

(** [onFloorPickerButtonPress]: the index sent to the map through
    [setIndoorActiveLevelIndex] and the value handed to
    [setIndoorInformation]; [indoorInformation] is the slot as the render
    saw it. *)
Definition onFloorPickerButtonPress (index : float)
    (indoorInformation : IndoorInformation) : float * IndoorInformation :=
  (index,
   {| currentFloor := floorWithIndex index (floors indoorInformation);
      floors := floors indoorInformation |}).

(** The values the slot can take. *)
Inductive indoorReachable : IndoorInformation -> Prop :=
  | indoor_initial : indoorReachable initialIndoorInformation
  | indoor_entry info buildingInfo :
      indoorReachable info ->
      indoorReachable (onIndoorViewEntry buildingInfo)
  | indoor_pick info index :
      indoorReachable info ->
      indoorReachable (snd (onFloorPickerButtonPress index info)).

End Indoor.

(** ** The omnibox: local state *)

Section OmniboxLocal.
Context {E : Externals}.

(** The effect on [endLocation]. *)
Definition endLocationEffect (props : Screen) (o : Omnibox) : Omnibox :=
  {| endLocationDisplay :=
       match endLocation props with
       | value m => displayName m
       | null | undefined => ""
       end;
     startLocationSearchResults := startLocationSearchResults o;
     endLocationSearchResults := None;
     date := date o;
     dateIsNow := dateIsNow o;
     showTimePicker := showTimePicker o |}.

(** [onBlur] of the destination input. *)
Definition endLocationOnBlur (props : Screen) (o : Omnibox) : Omnibox :=
  {| endLocationDisplay :=
       match endLocation props with
       | value m => displayName m
       | null | undefined => endLocationDisplay o
       end;
     startLocationSearchResults := startLocationSearchResults o;
     endLocationSearchResults := None;
     date := date o;
     dateIsNow := dateIsNow o;
     showTimePicker := showTimePicker o |}.

(** What the effect on [startLocation] and [onBlur] of the start input do
    to the local state: [setStartLocationSearchResults(null)]. *)
Definition clearStartLocationSearchResults (o : Omnibox) : Omnibox :=
  {| endLocationDisplay := endLocationDisplay o;
     startLocationSearchResults := None;
     endLocationSearchResults := endLocationSearchResults o;
     date := date o;
     dateIsNow := dateIsNow o;
     showTimePicker := showTimePicker o |}.

(** [onPress] of the time-picker button. *)
Definition timePickerButtonOnPress (o : Omnibox) : Omnibox :=
  {| endLocationDisplay := endLocationDisplay o;
     startLocationSearchResults := startLocationSearchResults o;
     endLocationSearchResults := endLocationSearchResults o;
     date := date o;
     dateIsNow := dateIsNow o;
     showTimePicker := negb (showTimePicker o) |}.

(** An array is truthy, also an empty one; [null] is not. *)
Definition truthyArray {A} (results : option (list A)) : bool :=
  match results with Some _ => true | None => false end.

(** The condition under which [Autocomplete] is rendered. *)
Definition autocompleteShown (props : Screen) (o : Omnibox) : bool :=
  (truthyArray (startLocationSearchResults o)
   && negb (String.eqb (startLocationDisplay props) ""))
  || (truthyArray (endLocationSearchResults o)
      && negb (String.eqb (endLocationDisplay o) "")).

(** Its [searchResults] prop,
    [startLocationSearchResults || endLocationSearchResults]. *)
Definition autocompleteSearchResults (o : Omnibox) : option (list POI.t) :=
  match startLocationSearchResults o with
  | Some results => Some results
  | None => endLocationSearchResults o
  end.

End OmniboxLocal.

(** ** A concrete campus

    An instance of the collaborators on which the handlers can be run: three
    buildings, two of which overlap, and the even-odd ray-casting test for
    polygon containment. *)

Local Open Scope float_scope.

(** Whether the edge from [vj] to [vi] is crossed by the ray from [point]. *)
Definition crossesEdge (point vi vj : Location) : bool :=
  (((longitude vi <=? longitude point) && (longitude point <? longitude vj))
   || ((longitude vj <=? longitude point) && (longitude point <? longitude vi)))
  && (latitude point <?
        (latitude vj - latitude vi) * (longitude point - longitude vi)
          / (longitude vj - longitude vi)
        + latitude vi).

(** One pass over the vertices, [vj] being the vertex before [vi]; every
    crossed edge flips the answer. *)
Fixpoint rayCast (point vj : Location) (polygon : list Location)
    (isInside : bool) : bool :=
  match polygon with
  | [] => isInside
  | vi :: rest =>
      rayCast point vi rest
        (if crossesEdge point vi vj then negb isInside else isInside)
  end.

(** The pass starts with the edge from the last vertex to the first. *)
Definition evenOddInside (point : Location) (polygon : list Location) : bool :=
  match polygon with
  | [] => false
  | v :: _ => rayCast point (List.last polygon v) polygon false
  end.

(** A coordinate literal. *)
Definition latLng (lat lng : float) : Location :=
  {| latitude := lat; longitude := lng |}.

(** The corners of an axis-parallel rectangle, in order. *)
Definition rectangle (south west north east : float) : list Location :=
  [latLng south west; latLng south east;
   latLng north east; latLng north west].

(** The annex overlaps the north-east corner of the hall; the library
    stands apart. *)
Definition hall : Building.t :=
  {| Building.id := "H"%string;
     Building.displayName := "Henry F. Hall Building"%string;
     Building.boundingBox := rectangle 45 (-74) 46 (-73) |}.

Definition annex : Building.t :=
  {| Building.id := "HA"%string;
     Building.displayName := "Hall Annex"%string;
     Building.boundingBox := rectangle 45.25 (-73.75) 46.5 (-72.5) |}.

Definition library : Building.t :=
  {| Building.id := "LB"%string;
     Building.displayName := "Webster Library"%string;
     Building.boundingBox := rectangle 47 (-74) 48 (-73) |}.

(** The registry lists the hall before the annex.  [buildingToMarker]
    keeps the building as the endpoint, the data model of the spec having
    an endpoint be a building or a free-form record. *)
Definition sampleCampus : Externals :=
  {| Buildings := [hall; annex; library];
     isPointInPolygon := evenOddInside;
     buildingToMarker := ofBuilding;
     FETCHING_CURRENT_LOCATION_DISPLAY_TEXT :=
       "Fetching current location..."%string;
     CURRENT_LOCATION_DISPLAY_TEXT := "Current Location"%string;
     PlatformOS := "android"%string;
     formatTime := fun _ => "at the picked time"%string |}.

(** In the hall only, in the hall and the annex, in the library only, and
    outside every building. *)
Definition inHallOnly : Location := latLng 45.125 (-73.875).
Definition inHallAndAnnex : Location := latLng 45.5 (-73.5).
Definition inLibrary : Location := latLng 47.5 (-73.5).
Definition outdoors : Location := latLng 50 (-70).

(** A point of interest. *)
Definition cafe : POI.t :=
  {| POI.name := "cafe"%string; POI.displayName := "Cafe"%string;
     POI.coordinates := latLng 45.5 (-73.625) |}.

(** Planning a trip from the hall to the cafe, the start field focused. *)
Definition planningScreen : Screen :=
  {| showBuildingInfo := true;
     tappedBuilding := Some "LB"%string;
     currentLocation := Some inHallOnly;
     endLocation := value (ofPOI cafe);
     startLocation := value (ofBuilding hall);
     endLocationFocused := false;
     travelState := PLANNING;
     startLocationDisplay := "Henry F. Hall Building"%string;
     pendingLookups := [] |}.

(** The same trip with the travel state TRAVELLING, as the omnibox and
    the handlers of the screen provide for it. *)
Definition travellingScreen : Screen :=
  setTravelState TRAVELLING planningScreen.

(** The initial screen with one lookup outstanding. *)
Definition lookingUpScreen : Screen :=
  setUserCurrentLocation (E := sampleCampus) (rendered initialScreen)
    initialScreen.

(** The omnibox as it mounts on [planningScreen] at time 1000. *)
Definition mountedOmnibox : Omnibox :=
  {| endLocationDisplay := "Cafe"%string;
     startLocationSearchResults := None;
     endLocationSearchResults := None;
     date := 1000%Z;
     dateIsNow := true;
     showTimePicker := false |}.

(** Planning has just begun with a press on the cafe: the lookup is
    outstanding. *)
Definition awaitingScreen : Screen :=
  onPOIMarkerPress (E := sampleCampus) (rendered initialScreen) (Some cafe)
    initialScreen.

(** A building with three levels, the middle one active, and the number
    conversion restricted to the names that occur. *)
Definition sampleNumber (name : string) : float :=
  if String.eqb name "1" then 1
  else if String.eqb name "2" then 2
  else if String.eqb name "3" then 3
  else nan.

Definition sampleIndoorBuilding : IndoorBuilding :=
  {| levels :=
       [ {| IndoorLevel.name := "3"%string; IndoorLevel.index := 0 |};
         {| IndoorLevel.name := "2"%string; IndoorLevel.index := 1 |};
         {| IndoorLevel.name := "1"%string; IndoorLevel.index := 2 |} ];
     activeLevelIndex := 1 |}.

(** The omnibox while results for the end field are listed. *)
Definition searchingOmnibox : Omnibox :=
  {| endLocationDisplay := "Caf"%string;
     startLocationSearchResults := None;
     endLocationSearchResults := Some [cafe];
     date := 1000%Z;
     dateIsNow := true;
     showTimePicker := false |}.

Local Close Scope float_scope.

(** * Properties *)

(** Runs the setters of a handler body. *)
Ltac run_update :=
  unfold seq, skip, setUserCurrentLocation, onClosePanel,
    backArrowOnPress, startLocationOnFocus, endLocationOnFocus; simpl.

(** ** Rendering *)

Section Rendering.
Context {E : Externals}.

Lemma render_Normal s s' : render s = Normal s' -> s' = s.
Proof.
  unfold render.
  destruct (omniboxShown s); [destruct (readDisplayName (endLocation s))|];
    intros Heq; inversion Heq; reflexivity.
Qed.

(** A state renders exactly when the omnibox is hidden or has an end
    endpoint to read the name of. *)
Lemma render_Normal_iff s :
  render s = Normal s
  <-> (omniboxShown s = true -> truthy (endLocation s) = true).
Proof.
  unfold render, readDisplayName.
  destruct (omniboxShown s), (endLocation s); simpl; split;
    try discriminate; try reflexivity; auto;
    intros Hx; specialize (Hx eq_refl); discriminate Hx.
Qed.

Lemma render_hidden s : omniboxShown s = false -> render s = Normal s.
Proof. intros Hs. unfold render. rewrite Hs. reflexivity. Qed.

(** A handler that keeps the travel state, and keeps the end endpoint or
    sets it to an object, leads to a state that renders. *)
Lemma render_kept s s' :
  travelState s' = travelState s ->
  endLocation s' = endLocation s \/ truthy (endLocation s') = true ->
  render s = Normal s -> render s' = Normal s'.
Proof.
  intros Hts Hend. rewrite !render_Normal_iff.
  unfold omniboxShown. rewrite Hts.
  intros Hs Hshown. destruct Hend as [-> | Hend]; auto.
Qed.

Lemma step_dispatch s e s' :
  dispatch s e = Some s' -> render s' = Normal s' ->
  step s e = Some (Normal s').
Proof. intros Hd Hr. unfold step. rewrite Hd, Hr. reflexivity. Qed.

(** Every state of the screen has rendered. *)
Lemma reachable_renders s : reachable s -> render s = Normal s.
Proof.
  intros Hreach. destruct Hreach as [|s e s' _ Hstep]; [reflexivity|].
  unfold step in Hstep.
  destruct (dispatch s e) as [s1|]; [|discriminate Hstep].
  injection Hstep as Hstep.
  pose proof (render_Normal _ _ Hstep) as ->. exact Hstep.
Qed.

Lemma reachable_runEvents events : forall s s',
  reachable s -> runEvents s events = Some s' -> reachable s'.
Proof.
  induction events as [|e rest IH]; intros s s' Hreach Hrun; simpl in Hrun.
  - injection Hrun as <-. exact Hreach.
  - destruct (step s e) as [[s1|err]|] eqn:Hstep; try discriminate Hrun.
    apply (IH s1 s'); [|exact Hrun].
    apply (reachable_step s e s1); assumption.
Qed.

End Rendering.

(** The sample screens are states of the sample campus: a press on the
    cafe starts planning, the lookup finds the device in the hall, the
    library is tapped and the cafe pressed again while the end field is
    focused, the start text follows the start endpoint, and the start field
    is focused. *)
Lemma planningScreen_reachable : reachable (E := sampleCampus) planningScreen.
Proof.
  apply (reachable_runEvents (E := sampleCampus)
           [POIMarkerPress (Some cafe); LocationResolved 0 inHallOnly;
            BuildingTap library; POIMarkerPress (Some cafe);
            StartLocationChanged; StartFieldFocus]
           initialScreen).
  - apply reachable_initial.
  - vm_compute. reflexivity.
Qed.

Lemma lookingUpScreen_reachable :
  reachable (E := sampleCampus) lookingUpScreen.
Proof.
  apply (reachable_step (E := sampleCampus) initialScreen
           LocationButtonPress).
  - apply reachable_initial.
  - vm_compute. reflexivity.
Qed.

(** ** Resolution of the start endpoint *)

Section StartEndpoint.
Context {E : Externals}.

(** [Array.prototype.find] returns the head of the filtered array. *)
Lemma find_head_filter {A} (f : A -> bool) (l : list A) :
  List.find f l = head (filter (fun x => f x = true) l).
Proof.
  induction l as [|x l IH]; [reflexivity|].
  simpl. rewrite filter_cons.
  destruct (f x) eqn:Hx.
  - rewrite decide_True by reflexivity. reflexivity.
  - rewrite decide_False by discriminate. exact IH.
Qed.

(** What [onBuildingTap] leaves alone, whatever its closure saw. *)
Lemma onBuildingTap_frame r b s :
  let s' := onBuildingTap r b s in
  travelState s' = travelState s
  /\ endLocationFocused s' = endLocationFocused s
  /\ pendingLookups s' = pendingLookups s
  /\ currentLocation s' = currentLocation s
  /\ startLocationDisplay s' = startLocationDisplay s
  /\ (endLocation s' = endLocation s \/ truthy (endLocation s') = true).
Proof.
  unfold onBuildingTap, setBuildingMarkerLocation.
  destruct (Render.travelState r), (Render.endLocationFocused r);
    run_update; repeat split; auto.
Qed.

Lemma setStartLocationBuilding_start r coordinates s :
  startLocation (setStartLocationBuilding r coordinates s)
  = value (resolveStart coordinates).
Proof.
  unfold setStartLocationBuilding, resolveStart, contains.
  rewrite find_head_filter.
  destruct (filter _ Buildings) as [|first rest]; reflexivity.
Qed.

Lemma setStartLocationBuilding_frame r coordinates s :
  let s' := setStartLocationBuilding r coordinates s in
  travelState s' = travelState s
  /\ endLocationFocused s' = endLocationFocused s
  /\ pendingLookups s' = pendingLookups s
  /\ currentLocation s' = currentLocation s
  /\ startLocationDisplay s' = startLocationDisplay s
  /\ (endLocation s' = endLocation s \/ truthy (endLocation s') = true).
Proof.
  unfold setStartLocationBuilding.
  destruct (List.find _ Buildings) as [b|];
    [|run_update; repeat split; auto].
  unfold seq. simpl. apply onBuildingTap_frame.
Qed.

(** A settled lookup removes its promise; the state it leaves renders when
    the state before it did. *)
Lemma step_LocationResolved s n r coords :
  pendingLookups s !! n = Some r ->
  render s = Normal s ->
  step s (LocationResolved n coords)
  = Some (Normal (onLocationResolved r coords
                    (setPendingLookups (delete n (pendingLookups s)) s))).
Proof.
  intros Hn Hrender. apply step_dispatch.
  - unfold dispatch, handler. rewrite Hn. reflexivity.
  - unfold onLocationResolved, seq.
    set (s1 := setCurrentLocation _ _).
    destruct (setStartLocationBuilding_frame r coords s1)
      as (Hts & _ & _ & _ & _ & Hend).
    apply (render_kept s); assumption.
Qed.

(** C1 (as amended): for every coordinate C handed to
    [setStartLocationBuilding] by a successful lookup, the start endpoint
    becomes the first building, in registry order, whose polygon contains C
    (so the only such building when there is exactly one), and the generic
    current-location marker carrying C when no polygon contains C; every
    building of the registry takes part in the test. *)
Theorem setStartLocationBuilding_first_match
    (r : Render.t) (C : Location) (s : Screen) :
  let inside := filter (fun b => contains C b = true) Buildings in
  let start := startLocation (setStartLocationBuilding r C s) in
  (forall first rest,
      inside = first :: rest -> start = value (buildingToMarker first))
  /\ (forall only,
      inside = [only] -> start = value (buildingToMarker only))
  /\ (inside = [] ->
      start = value (currentLocationMarker C)
      /\ exists p, currentLocationMarker C = ofPOI p /\ POI.coordinates p = C)
  /\ startLocation (onLocationResolved r C s) = start
  /\ (forall n, pendingLookups s !! n = Some r -> render s = Normal s ->
      exists s', step s (LocationResolved n C) = Some (Normal s')
                 /\ startLocation s' = start
                 /\ currentLocation s' = Some C).
Proof.
  intros inside start.
  assert (Hstart : start = value (resolveStart C))
    by apply setStartLocationBuilding_start.
  assert (Hfirst : forall first rest,
             inside = first :: rest -> start = value (buildingToMarker first)).
  { intros first rest Hin. rewrite Hstart. unfold resolveStart.
    fold inside. rewrite Hin. reflexivity. }
  split; [exact Hfirst|].
  split; [intros only; apply Hfirst|].
  split; [|split].
  - intros Hin. split.
    + rewrite Hstart. unfold resolveStart. fold inside. rewrite Hin.
      reflexivity.
    + eexists. split; reflexivity.
  - unfold onLocationResolved, seq. subst start.
    rewrite !setStartLocationBuilding_start. reflexivity.
  - intros n Hn Hrender. eexists.
    split; [apply step_LocationResolved; [exact Hn | exact Hrender]|].
    unfold onLocationResolved, seq. split.
    + subst start. rewrite !setStartLocationBuilding_start. reflexivity.
    + destruct (setStartLocationBuilding_frame r C
        (setCurrentLocation (Some C)
           (setPendingLookups (delete n (pendingLookups s)) s)))
        as (_ & _ & _ & -> & _).
      reflexivity.
Qed.

End StartEndpoint.

(** On the sample campus a device in the library starts at the library, and
    a device outdoors starts at the generic marker. *)
Lemma setStartLocationBuilding_first_match_witness :
  startLocation
    (setStartLocationBuilding (E := sampleCampus) (rendered initialScreen)
       inLibrary initialScreen)
  = value (ofBuilding library)
  /\ startLocation
       (setStartLocationBuilding (E := sampleCampus) (rendered initialScreen)
          outdoors initialScreen)
     = value (currentLocationMarker (E := sampleCampus) outdoors)
  /\ exists s',
       step (E := sampleCampus) lookingUpScreen (LocationResolved 0 inLibrary)
       = Some (Normal s')
       /\ startLocation s' = value (ofBuilding library).
Proof.
  split; [|split].
  - destruct (setStartLocationBuilding_first_match (E := sampleCampus)
                (rendered initialScreen) inLibrary initialScreen)
      as (_ & Honly & _).
    apply (Honly library). vm_compute. reflexivity.
  - destruct (setStartLocationBuilding_first_match (E := sampleCampus)
                (rendered initialScreen) outdoors initialScreen)
      as (_ & _ & Hnone & _).
    apply Hnone. vm_compute. reflexivity.
  - destruct (setStartLocationBuilding_first_match (E := sampleCampus)
                (rendered initialScreen) inLibrary lookingUpScreen)
      as (_ & Honly & _ & _ & Hstep).
    destruct (Hstep 0%nat eq_refl eq_refl) as (s' & Hs' & Hst & _).
    exists s'. split; [exact Hs'|].
    rewrite Hst. apply (Honly library). vm_compute. reflexivity.
Defined.

(** Where two polygons overlap the coordinate lies in more than one
    building, and the start endpoint is the first of them, not the generic
    marker. *)
Lemma setStartLocationBuilding_overlap_counterexample :
  reachable (E := sampleCampus) lookingUpScreen
  /\ filter (fun b => contains (E := sampleCampus) inHallAndAnnex b = true)
    (Buildings (Externals := sampleCampus))
  = [hall; annex]
  /\ step (E := sampleCampus) lookingUpScreen
       (LocationResolved 0 inHallAndAnnex)
     = Some (Normal
         (setStartLocation (value (ofBuilding hall))
            (setTappedBuilding (Some (Building.id hall))
               (setShowBuildingInfo true
                  (setCurrentLocation (Some inHallAndAnnex)
                     (setPendingLookups [] lookingUpScreen))))))
  /\ startLocation
       (setStartLocationBuilding (E := sampleCampus) (rendered initialScreen)
          inHallAndAnnex initialScreen)
     = value (ofBuilding hall)
  /\ startLocation
       (setStartLocationBuilding (E := sampleCampus) (rendered initialScreen)
          inHallAndAnnex initialScreen)
     <> value (currentLocationMarker (E := sampleCampus) inHallAndAnnex).
Proof.
  split; [exact lookingUpScreen_reachable|].
  split; [vm_compute; reflexivity|].
  split; [vm_compute; reflexivity|].
  split; [vm_compute; reflexivity|].
  vm_compute. discriminate.
Qed.

(** ** The gestures of the travel flow *)

Section Gestures.
Context {E : Externals}.

(** C2: while the omnibox is shown the back arrow can be pressed, and
    whatever endpoints were set, the press leaves both endpoints null, the
    end field focused and the travel state NONE. *)
Theorem backArrow_resets_flow (s : Screen) :
  omniboxShown s = true ->
  exists s', step s BackArrowPress = Some (Normal s')
    /\ startLocation s' = null
    /\ endLocation s' = null
    /\ endLocationFocused s' = true
    /\ travelState s' = NONE.
Proof.
  intros Hshown. exists (backArrowOnPress s).
  split; [|repeat split].
  unfold step, dispatch, handler. rewrite Hshown. reflexivity.
Qed.

(** C3: a tap on building B in state NONE records B.id and puts the
    information panel on screen; a tap in state PLANNING sets the focused
    endpoint (end if the end field is focused, start otherwise) to B, leaves
    the other endpoint alone, and the panel is not on screen.  The tap is a
    step of the screen: the state it leaves renders whenever the state it
    was made in did. *)
Theorem onBuildingTap_by_travelState (B : Building.t) (s : Screen) :
  let s' := onBuildingTap (rendered s) B s in
  dispatch s (BuildingTap B) = Some s'
  /\ (travelState s = NONE ->
      tappedBuilding s' = Some (Building.id B)
      /\ showBuildingInfo s' = true
      /\ panelVisible s' = true
      /\ step s (BuildingTap B) = Some (Normal s'))
  /\ (travelState s = PLANNING ->
      (if endLocationFocused s
       then endLocation s' = value (ofBuilding B)
            /\ startLocation s' = startLocation s
       else startLocation s' = value (ofBuilding B)
            /\ endLocation s' = endLocation s)
      /\ panelVisible s' = false
      /\ (render s = Normal s -> step s (BuildingTap B) = Some (Normal s'))).
Proof.
  intros s'. split; [reflexivity|].
  destruct (onBuildingTap_frame (rendered s) B s)
    as (Hts' & _ & _ & _ & _ & Hend).
  split; intros Hts.
  - assert (Hs' : s' = setTappedBuilding (Some (Building.id B))
                         (setShowBuildingInfo true s)).
    { subst s'. unfold onBuildingTap, setBuildingMarkerLocation, rendered.
      simpl. rewrite Hts. reflexivity. }
    split; [rewrite Hs'; reflexivity|].
    split; [rewrite Hs'; reflexivity|].
    split.
    + rewrite Hs'. unfold panelVisible, panelRendered. simpl.
      rewrite Hts. reflexivity.
    + apply step_dispatch; [reflexivity|]. apply render_hidden.
      unfold omniboxShown. fold s' in Hts'. rewrite Hts', Hts. reflexivity.
  - split; [|split].
    + subst s'. unfold onBuildingTap, setBuildingMarkerLocation, rendered.
      simpl. rewrite Hts.
      destruct (endLocationFocused s); run_update; repeat split.
    + unfold panelVisible, panelRendered. fold s' in Hts'.
      rewrite Hts', Hts. reflexivity.
    + intros Hrender. apply step_dispatch; [reflexivity|].
      apply (render_kept s); assumption.
Qed.

(** C10: a tap on a building while PLANNING also overwrites
    [tappedBuilding] with the id of the tapped building, whatever it held,
    besides setting the focused endpoint, although the information panel is
    not on screen. *)
Theorem onBuildingTap_planning_sets_tappedBuilding
    (B : Building.t) (s : Screen) :
  travelState s = PLANNING ->
  let s' := onBuildingTap (rendered s) B s in
  dispatch s (BuildingTap B) = Some s'
  /\ tappedBuilding s' = Some (Building.id B)
  /\ (tappedBuilding s <> Some (Building.id B) ->
      tappedBuilding s' <> tappedBuilding s)
  /\ appliedToFocused s s' (value (ofBuilding B))
  /\ panelVisible s' = false
  /\ (render s = Normal s -> step s (BuildingTap B) = Some (Normal s')).
Proof.
  intros Hts s'. split; [reflexivity|].
  destruct (onBuildingTap_frame (rendered s) B s)
    as (Hts' & _ & _ & _ & _ & Hend).
  assert (Htapped : tappedBuilding s' = Some (Building.id B)).
  { subst s'. unfold onBuildingTap, setBuildingMarkerLocation, rendered.
    simpl. rewrite Hts. destruct (endLocationFocused s); reflexivity. }
  split; [exact Htapped|].
  split; [rewrite Htapped; congruence|].
  split; [|split].
  - subst s'.
    unfold appliedToFocused, onBuildingTap, setBuildingMarkerLocation,
      rendered.
    simpl. rewrite Hts.
    destruct (endLocationFocused s); run_update; repeat split.
  - unfold panelVisible, panelRendered. fold s' in Hts'.
    rewrite Hts', Hts. reflexivity.
  - intros Hrender. apply step_dispatch; [reflexivity|].
    apply (render_kept s); assumption.
Qed.

(** C5: when the lookup issued by render [r] fails, the [.catch] callback
    changes the state in the start-field display text, now empty, and in
    nothing else but the settled promise being gone: no lookup is issued,
    [currentLocation], [startLocation] and every other slot keep their
    values, and the screen renders as it did before (nothing is thrown). *)
Theorem location_lookup_failure_clears_display
    (s : Screen) (n : nat) (r : Render.t) :
  pendingLookups s !! n = Some r ->
  exists s', dispatch s (LocationRejected n) = Some s'
    /\ s' = setStartLocationDisplay ""
              (setPendingLookups (delete n (pendingLookups s)) s)
    /\ startLocationDisplay s' = ""
    /\ pendingLookups s' = delete n (pendingLookups s)
    /\ length (pendingLookups s') < length (pendingLookups s)
    /\ currentLocation s' = currentLocation s
    /\ startLocation s' = startLocation s
    /\ endLocation s' = endLocation s
    /\ travelState s' = travelState s
    /\ endLocationFocused s' = endLocationFocused s
    /\ tappedBuilding s' = tappedBuilding s
    /\ showBuildingInfo s' = showBuildingInfo s
    /\ (render s = Normal s -> step s (LocationRejected n) = Some (Normal s')).
Proof.
  intros Hn.
  assert (Hd : dispatch s (LocationRejected n)
               = Some (setStartLocationDisplay ""
                         (setPendingLookups (delete n (pendingLookups s)) s))).
  { unfold dispatch, handler. rewrite Hn. reflexivity. }
  eexists. split; [exact Hd|]. simpl. repeat split.
  - rewrite length_delete by eauto.
    apply lookup_lt_Some in Hn. lia.
  - intros Hrender. apply step_dispatch; [exact Hd|].
    apply (render_kept s); [reflexivity | left; reflexivity | exact Hrender].
Qed.

End Gestures.

Lemma backArrow_resets_flow_witness :
  omniboxShown planningScreen = true
  /\ exists s', step (E := sampleCampus) planningScreen BackArrowPress
               = Some (Normal s')
    /\ startLocation s' = null
    /\ endLocation s' = null
    /\ endLocationFocused s' = true
    /\ travelState s' = NONE.
Proof.
  split; [reflexivity|].
  apply (backArrow_resets_flow (E := sampleCampus) planningScreen).
  reflexivity.
Defined.

Lemma onBuildingTap_by_travelState_witness :
  (exists s', step (E := sampleCampus) initialScreen (BuildingTap hall)
              = Some (Normal s')
     /\ tappedBuilding s' = Some "H"
     /\ panelVisible s' = true)
  /\ (exists s', step (E := sampleCampus) planningScreen (BuildingTap library)
              = Some (Normal s')
     /\ startLocation s' = value (ofBuilding library)
     /\ endLocation s' = value (ofPOI cafe)
     /\ panelVisible s' = false).
Proof.
  destruct (onBuildingTap_by_travelState (E := sampleCampus) hall
              initialScreen) as (_ & Hnone & _).
  destruct (Hnone eq_refl) as (Htapped & _ & Hpanel & Hstep).
  destruct (onBuildingTap_by_travelState (E := sampleCampus) library
              planningScreen) as (_ & _ & Hplanning).
  destruct (Hplanning eq_refl) as ((Hstart & Hend) & Hhidden & Hstep').
  split; eexists.
  - split; [exact Hstep|]. split; [exact Htapped | exact Hpanel].
  - split; [exact (Hstep' eq_refl)|].
    split; [exact Hstart|]. split; [exact Hend | exact Hhidden].
Defined.

Lemma onBuildingTap_planning_sets_tappedBuilding_witness :
  travelState planningScreen = PLANNING
  /\ tappedBuilding planningScreen = Some "LB"
  /\ exists s', step (E := sampleCampus) planningScreen (BuildingTap hall)
               = Some (Normal s')
    /\ tappedBuilding s' = Some "H"
    /\ panelVisible s' = false.
Proof.
  split; [reflexivity|]. split; [reflexivity|].
  destruct (onBuildingTap_planning_sets_tappedBuilding (E := sampleCampus)
              hall planningScreen eq_refl)
    as (_ & Htapped & _ & _ & Hhidden & Hstep).
  eexists. split; [exact (Hstep eq_refl)|].
  split; [exact Htapped | exact Hhidden].
Defined.

Lemma location_lookup_failure_clears_display_witness :
  pendingLookups lookingUpScreen !! 0%nat = Some (rendered initialScreen)
  /\ startLocationDisplay lookingUpScreen = "Fetching current location..."
  /\ step (E := sampleCampus) lookingUpScreen (LocationRejected 0)
     = Some (Normal initialScreen).
Proof.
  split; [reflexivity|]. split; [reflexivity|].
  destruct (location_lookup_failure_clears_display (E := sampleCampus)
              lookingUpScreen 0 (rendered initialScreen) eq_refl)
    as (s' & _ & Hs' & _ & _ & _ & _ & _ & _ & _ & _ & _ & _ & Hstep).
  rewrite (Hstep eq_refl), Hs'. reflexivity.
Defined.

(** ** Travel modes *)

(** C4: the car, bus and shuttle buttons have neither a press handler nor a
    highlight style: pressing one passes nothing upward and highlights
    nothing, whatever props the omnibox was given.  Their siblings, the
    accessible and the walking button, pass their mode to [setTravelMode]
    and are highlighted while it is the [travelMode] prop, provided the
    props are passed; [MapScreen] passes neither, so there a press on them
    throws and no button is ever highlighted. *)
Theorem travel_mode_buttons_unwired
    (setTravelModeGiven : bool) (travelMode : Nullable TravelMode)
    (s : Screen) :
  (pressTravelModeButton setTravelModeGiven (buttonOf CAR) = Normal None
   /\ pressTravelModeButton setTravelModeGiven (buttonOf BUS) = Normal None
   /\ pressTravelModeButton setTravelModeGiven (buttonOf SHUTTLE)
      = Normal None)
  /\ (highlightedWith travelMode (buttonOf CAR) = false
      /\ highlightedWith travelMode (buttonOf BUS) = false
      /\ highlightedWith travelMode (buttonOf SHUTTLE) = false)
  /\ (pressTravelModeButton true (buttonOf ACCESSIBLE)
      = Normal (Some ACCESSIBLE)
      /\ pressTravelModeButton true (buttonOf WALKING) = Normal (Some WALKING)
      /\ highlightedWith (value ACCESSIBLE) (buttonOf ACCESSIBLE) = true
      /\ highlightedWith (value WALKING) (buttonOf WALKING) = true)
  /\ (pressTravelModeButton setTravelModePassed (buttonOf ACCESSIBLE)
      = Throw TypeError
      /\ pressTravelModeButton setTravelModePassed (buttonOf WALKING)
         = Throw TypeError
      /\ forall button,
           highlightedWith (travelModeProp s) button = false).
Proof.
  split; [repeat split|].
  split; [destruct travelMode as [| |mode]; repeat split|].
  split; [repeat split|].
  split; [reflexivity|]. split; [reflexivity|].
  intros button. reflexivity.
Qed.

(** ** Departure time *)

Section DepartureTime.
Context {E : Externals}.

(** C7 (as amended): a null pick sets [dateIsNow], so the departure time
    reads "now", and stores the clock reading as the date.  A second null
    pick leaves the flag, the picker visibility, the displayed text and the
    text and result slots as the first one left them, and again stores the
    clock reading: the state is unchanged exactly when the clock has not
    moved between the two picks. *)
Theorem onDateChange_null_pick (now later : Date) (o : Omnibox) :
  let o1 := onDateChange now None o in
  let o2 := onDateChange later None o1 in
  dateIsNow o1 = true
  /\ showPickedTime (date o1) (dateIsNow o1) = "now"
  /\ departureText o1 = "DEPART now"
  /\ date o1 = now
  /\ dateIsNow o2 = dateIsNow o1
  /\ showTimePicker o2 = showTimePicker o1
  /\ departureText o2 = departureText o1
  /\ endLocationDisplay o2 = endLocationDisplay o1
  /\ startLocationSearchResults o2 = startLocationSearchResults o1
  /\ endLocationSearchResults o2 = endLocationSearchResults o1
  /\ date o2 = later
  /\ (o2 = o1 <-> later = now).
Proof.
  simpl. repeat split.
  - intros Heq. apply (f_equal date) in Heq. exact Heq.
  - intros ->. reflexivity.
Qed.

End DepartureTime.

Lemma onDateChange_null_pick_witness :
  let o1 := onDateChange (E := sampleCampus) 5000%Z None mountedOmnibox in
  departureText (E := sampleCampus) o1 = "DEPART now"
  /\ onDateChange (E := sampleCampus) 5000%Z None o1 = o1.
Proof.
  destruct (onDateChange_null_pick (E := sampleCampus) 5000%Z 5000%Z
              mountedOmnibox)
    as (_ & _ & Htext & _ & _ & _ & _ & _ & _ & _ & _ & Hsame).
  split; [exact Htext | apply Hsame; reflexivity].
Defined.

(** Two null picks a second apart: the second one changes the stored
    date. *)
Lemma onDateChange_null_pick_counterexample :
  let o1 := onDateChange (E := sampleCampus) 5000%Z None mountedOmnibox in
  let o2 := onDateChange (E := sampleCampus) 6000%Z None o1 in
  date o1 = 5000%Z /\ date o2 = 6000%Z /\ o2 <> o1.
Proof. repeat split. discriminate. Qed.

(** ** Mounting the omnibox *)

Section Mount.
Context {E : Externals}.

(** C9: the state initialiser of the omnibox reads
    [endLocation.displayName] unguarded: mounting returns exactly when the
    end endpoint is an object, and throws a TypeError when it is [null] or
    [undefined] (and so does every later render, which evaluates the
    initialiser again).  A POI press with [null] on the initial screen
    enters PLANNING with the end endpoint [null], so the omnibox that is now
    to be shown throws when it mounts. *)
Theorem mountOmniboxDirections_needs_endLocation :
  (forall now props,
     (exists o, mountOmniboxDirections now props = Normal o)
     <-> exists m, endLocation props = value m)
  /\ (forall now props mounted,
     truthy (endLocation props) = false ->
     mountOmniboxDirections now props = Throw TypeError
     /\ useOmniboxState now props mounted = Throw TypeError)
  /\ (let s := onPOIMarkerPress (rendered initialScreen) None initialScreen in
      dispatch initialScreen (POIMarkerPress None) = Some s
      /\ travelState s = PLANNING
      /\ omniboxShown s = true
      /\ endLocation s = null
      /\ (forall now, mountOmniboxDirections now s = Throw TypeError)
      /\ step initialScreen (POIMarkerPress None) = Some (Throw TypeError)).
Proof.
  split; [|split].
  - intros now props.
    unfold mountOmniboxDirections, useOmniboxState, readDisplayName.
    destruct (endLocation props) as [| |m]; split.
    + intros [o Ho]. discriminate Ho.
    + intros [m Hm]. discriminate Hm.
    + intros [o Ho]. discriminate Ho.
    + intros [m Hm]. discriminate Hm.
    + intros _. exists m. reflexivity.
    + intros _. eexists. reflexivity.
  - intros now props mounted.
    unfold mountOmniboxDirections, useOmniboxState, readDisplayName.
    destruct (endLocation props);
      [split; reflexivity | split; reflexivity | discriminate].
  - repeat split.
Qed.

End Mount.

Lemma mountOmniboxDirections_needs_endLocation_witness :
  mountOmniboxDirections 1000%Z planningScreen = Normal mountedOmnibox
  /\ mountOmniboxDirections 1000%Z initialScreen = Throw TypeError
  /\ step (E := sampleCampus) initialScreen (POIMarkerPress None)
     = Some (Throw TypeError).
Proof.
  destruct (mountOmniboxDirections_needs_endLocation (E := sampleCampus))
    as (_ & Hthrow & _ & _ & _ & _ & _ & Hstep).
  split; [reflexivity|].
  split; [apply (Hthrow 1000%Z initialScreen None); reflexivity | exact Hstep].
Defined.

(** ** The focus invariant *)

Section FocusInvariant.
Context {E : Externals}.

Ltac step_inv Hstep :=
  unfold step, dispatch, handler in Hstep;
  repeat match type of Hstep with
         | context [if ?c then _ else _] => destruct c eqn:?
         | context [match ?l !! ?n with _ => _ end] => destruct (l !! n) eqn:?
         end;
  try discriminate Hstep;
  injection Hstep as Hstep; try apply render_Normal in Hstep; subst.

Lemma step_flowChange s e s' :
  step s e = Some (Normal s') -> flowChange s e s'.
Proof.
  intros Hstep. destruct e; step_inv Hstep.
  - apply flow_same; apply onBuildingTap_frame.
  - unfold onPOIMarkerPress, rendered. simpl.
    destruct (endLocationFocused s) eqn:Hf.
    + apply flow_plan; [|rewrite <- Hf];
        destruct (travelState s); reflexivity.
    + apply flow_same; reflexivity.
  - apply flow_same; reflexivity.
  - apply flow_same; reflexivity.
  - apply flow_plan; reflexivity.
  - apply flow_back; auto.
  - apply flow_focus_start; auto.
  - apply flow_focus_end; auto.
  - apply flow_same; unfold startLocationOnBlur;
      destruct (startLocation s); reflexivity.
  - apply flow_same; reflexivity.
  - apply flow_same; unfold autocompleteSetLocation, rendered; simpl;
      destruct (endLocationFocused s) eqn:Hf; simpl; try rewrite Hf;
      reflexivity.
  - apply flow_same; unfold startLocationEffect;
      destruct (startLocation s); try reflexivity;
      destruct (String.eqb _ _); reflexivity.
  - exfalso.
    match goal with
    | Hshown : _ && startTravelShown _ s = true |- _ =>
        unfold startTravelShown, travelStateProp in Hshown;
        rewrite !andb_false_r in Hshown; discriminate Hshown
    end.
  - unfold seq, onLocationResolved, seq.
    match goal with
    | |- flowChange _ _ (setStartLocationBuilding ?r ?c ?x) =>
        destruct (setStartLocationBuilding_frame r c x) as (Hts & Hf & _)
    end.
    apply flow_same; [rewrite Hts | rewrite Hf]; reflexivity.
  - apply flow_same; reflexivity.
Qed.

(** As [MapScreen] passes the omnibox no [travelState] prop, the
    start-travel button is never rendered, so it cannot be pressed. *)
Lemma step_StartTravelPress s : step s StartTravelPress = None.
Proof.
  unfold step, dispatch, handler, startTravelShown, travelStateProp.
  rewrite !andb_false_r. reflexivity.
Qed.

(** Hence the screen is never in state TRAVELLING. *)
Lemma reachable_not_TRAVELLING s : reachable s -> travelState s <> TRAVELLING.
Proof.
  intros Hreach. induction Hreach as [|s e s' _ IH Hstep]; [discriminate|].
  destruct (step_flowChange s e s' Hstep) as
    [ _ _ Hts _ | _ _ Hts _ | _ _ Hts _ | Hts _ | He _ _ _ | Hts _ ];
    try congruence.
  subst e. rewrite step_StartTravelPress in Hstep. discriminate Hstep.
Qed.

(** Every lookup still outstanding was issued by a render in state NONE,
    so its [.then] callback takes the NONE branch of [onBuildingTap]. *)
Lemma pendingLookups_issued_in_NONE s :
  reachable s ->
  forall r, r ∈ pendingLookups s -> Render.travelState r = NONE.
Proof.
  intros Hreach. induction Hreach as [|s e s' _ IH Hstep].
  - intros r Hr. inversion Hr.
  - assert (Hsub : forall r, r ∈ pendingLookups s' ->
                r ∈ pendingLookups s
                \/ (r = rendered s /\ travelState s = NONE)).
    { destruct e; step_inv Hstep; intros r Hr.
      - left. destruct (onBuildingTap_frame (rendered s) b s)
          as (_ & _ & Hp & _). rewrite <- Hp. exact Hr.
      - revert Hr. unfold onPOIMarkerPress, rendered. simpl.
        destruct (endLocationFocused s); [|auto].
        destruct (travelState s) eqn:Hts; run_update; auto.
        intros Hr.
        apply elem_of_app in Hr as [Hr | Hr]; [auto|].
        apply list_elem_of_singleton in Hr. auto.
      - auto.
      - revert Hr. run_update. intros Hr.
        apply elem_of_app in Hr as [Hr | Hr]; [auto|].
        apply list_elem_of_singleton in Hr. right. split; [exact Hr|].
        match goal with
        | Hp : searchShown s = true |- _ =>
            apply bool_decide_eq_true in Hp; exact Hp
        end.
      - revert Hr. unfold searchOnSelect. run_update. intros Hr.
        apply elem_of_app in Hr as [Hr | Hr]; [auto|].
        apply list_elem_of_singleton in Hr. right. split; [exact Hr|].
        match goal with
        | Hp : searchShown s = true |- _ =>
            apply bool_decide_eq_true in Hp; exact Hp
        end.
      - auto.
      - auto.
      - auto.
      - left. revert Hr. unfold startLocationOnBlur.
        destruct (startLocation s); auto.
      - auto.
      - left. revert Hr. unfold autocompleteSetLocation.
        destruct (Render.endLocationFocused _); auto.
      - left. revert Hr. unfold startLocationEffect.
        destruct (startLocation s); auto; destruct (String.eqb _ _); auto.
      - auto.
      - left. revert Hr. unfold seq, onLocationResolved, seq.
        match goal with
        | |- context [setStartLocationBuilding ?r ?c ?x] =>
            destruct (setStartLocationBuilding_frame r c x)
              as (_ & _ & -> & _)
        end.
        simpl. intros Hr. eapply list_elem_of_delete_inv; eassumption.
      - left. revert Hr. unfold seq. simpl.
        intros Hr. eapply list_elem_of_delete_inv; eassumption. }
    intros r Hr. destruct (Hsub r Hr) as [Hold | [-> Hts]]; auto.
Qed.

(** Hence a settled lookup leaves the end endpoint alone. *)
Lemma resolved_lookup_keeps_endLocation s n r coords :
  reachable s -> pendingLookups s !! n = Some r ->
  forall s0, endLocation (onLocationResolved r coords s0) = endLocation s0.
Proof.
  intros Hreach Hn s0.
  assert (Hnone : Render.travelState r = NONE).
  { apply (pendingLookups_issued_in_NONE s Hreach).
    apply list_elem_of_lookup. exists n. exact Hn. }
  unfold onLocationResolved, setStartLocationBuilding, onBuildingTap,
    setBuildingMarkerLocation, seq.
  rewrite Hnone. destruct (List.find _ Buildings); reflexivity.
Qed.

(** C8: the end field is focused initially; a step that enters NONE is a
    back press and focuses the end field; a step that takes the focus from
    the end field is a focus of the start field, made while planning or
    travelling; hence in every reachable state with travel state NONE the
    end field is focused. *)
Theorem none_implies_endLocationFocused :
  (travelState initialScreen = NONE
   /\ endLocationFocused initialScreen = true)
  /\ (forall s e s',
        step s e = Some (Normal s') ->
        travelState s <> NONE -> travelState s' = NONE ->
        e = BackArrowPress /\ endLocationFocused s' = true)
  /\ (forall s e s',
        step s e = Some (Normal s') ->
        endLocationFocused s = true -> endLocationFocused s' = false ->
        e = StartFieldFocus
        /\ (travelState s = PLANNING \/ travelState s = TRAVELLING))
  /\ (forall s,
        reachable s -> travelState s = NONE -> endLocationFocused s = true).
Proof.
  split; [split; reflexivity|].
  split; [|split].
  - intros s e s' Hstep Hbefore Hafter.
    destruct (step_flowChange s e s' Hstep); try congruence.
    split; assumption.
  - intros s e s' Hstep Hbefore Hafter.
    destruct (step_flowChange s e s' Hstep) as
      [ | He Hshown _ _ | | | | ]; try congruence.
    split; [exact He|].
    unfold omniboxShown in Hshown.
    destruct (travelState s); [discriminate Hshown | left | right];
      reflexivity.
  - intros s Hreach. induction Hreach as [|s e s' _ IH Hstep].
    + reflexivity.
    + intros Hnone.
      destruct (step_flowChange s e s' Hstep) as
        [ | _ Hshown Hts _ | _ Hshown Hts Hf | Hts _ | _ _ Hts _ | Hts Hf ];
        try congruence.
      * unfold omniboxShown in Hshown. rewrite <- Hts, Hnone in Hshown.
        discriminate Hshown.
      * rewrite Hf. apply IH. congruence.
Qed.

End FocusInvariant.

Lemma none_implies_endLocationFocused_witness :
  let planning :=
    onPOIMarkerPress (E := sampleCampus) (rendered initialScreen)
      (Some cafe) initialScreen in
  let cancelled := backArrowOnPress (startLocationOnFocus planning) in
  endLocationFocused (startLocationOnFocus planning) = false
  /\ step (E := sampleCampus) (startLocationOnFocus planning) BackArrowPress
     = Some (Normal cancelled)
  /\ reachable (E := sampleCampus) cancelled
  /\ travelState cancelled = NONE
  /\ endLocationFocused cancelled = true.
Proof.
  intros planning cancelled.
  destruct (none_implies_endLocationFocused (E := sampleCampus))
    as (_ & _ & _ & Hinv).
  assert (Hreach : reachable (E := sampleCampus) cancelled).
  { eapply reachable_step with (e := BackArrowPress).
    eapply reachable_step with (e := StartFieldFocus).
    eapply reachable_step with (e := POIMarkerPress (Some cafe)).
    apply reachable_initial.
    all: reflexivity. }
  split; [reflexivity|]. split; [reflexivity|].
  split; [exact Hreach|]. split; [reflexivity|].
  apply Hinv; [exact Hreach | reflexivity].
Defined.

(** ** Which endpoint a selection goes to *)

Section FocusedEndpoint.
Context {E : Externals}.

(** C6: in every state of the screen in which the omnibox is shown, an
    autocomplete selection, a tap on a building and a press on a POI go to
    the start endpoint and leave the end endpoint alone when the end field
    is not focused, and go to the end endpoint and leave the start endpoint
    alone when it is.  The handler of a POI press does so for [null] as
    well. *)
Theorem selection_goes_to_focused_endpoint (s : Screen) :
  reachable s -> omniboxShown s = true ->
  (forall selected,
     exists s', step s (AutocompleteSelect selected) = Some (Normal s')
       /\ appliedToFocused s s' (value selected))
  /\ (forall B,
     exists s', step s (BuildingTap B) = Some (Normal s')
       /\ appliedToFocused s s' (value (ofBuilding B)))
  /\ (forall poi,
     exists s', step s (POIMarkerPress (Some poi)) = Some (Normal s')
       /\ appliedToFocused s s' (value (ofPOI poi)))
  /\ (forall poi : option POI.t,
     exists s', dispatch s (POIMarkerPress poi) = Some s'
       /\ appliedToFocused s s' (ofNull (ofPOI <$> poi))).
Proof.
  intros Hreach Hshown.
  pose proof (reachable_renders s Hreach) as Hrender.
  pose proof (proj1 (render_Normal_iff s) Hrender Hshown) as Hend.
  assert (Hts : travelState s = PLANNING).
  { pose proof (reachable_not_TRAVELLING s Hreach) as Hnot.
    unfold omniboxShown in Hshown.
    destruct (travelState s); [discriminate Hshown | reflexivity|].
    contradiction. }
  split; [|split; [|split]].
  - intros selected.
    exists (autocompleteSetLocation (rendered s) selected s). split.
    + apply step_dispatch.
      * unfold dispatch, handler. rewrite Hshown. reflexivity.
      * apply render_Normal_iff. intros _.
        unfold autocompleteSetLocation, rendered. simpl.
        destruct (endLocationFocused s); [reflexivity | exact Hend].
    + unfold appliedToFocused, autocompleteSetLocation, rendered. simpl.
      destruct (endLocationFocused s); split; reflexivity.
  - intros B. exists (onBuildingTap (rendered s) B s). split.
    + apply step_dispatch; [reflexivity|].
      destruct (onBuildingTap_frame (rendered s) B s)
        as (Hts' & _ & _ & _ & _ & Hend').
      apply (render_kept s); assumption.
    + unfold appliedToFocused, onBuildingTap, setBuildingMarkerLocation,
        rendered. simpl. rewrite Hts.
      destruct (endLocationFocused s); split; reflexivity.
  - intros poi. exists (onPOIMarkerPress (rendered s) (Some poi) s). split.
    + apply step_dispatch; [reflexivity|].
      apply render_Normal_iff. intros _.
      unfold onPOIMarkerPress, rendered. simpl. rewrite Hts.
      destruct (endLocationFocused s); [reflexivity | exact Hend].
    + unfold appliedToFocused, onPOIMarkerPress, rendered. simpl.
      rewrite Hts. destruct (endLocationFocused s); split; reflexivity.
  - intros poi. exists (onPOIMarkerPress (rendered s) poi s).
    split; [reflexivity|].
    unfold appliedToFocused, onPOIMarkerPress, rendered. simpl.
    rewrite Hts. destruct (endLocationFocused s); split; reflexivity.
Qed.

End FocusedEndpoint.

Lemma selection_goes_to_focused_endpoint_witness :
  reachable (E := sampleCampus) planningScreen
  /\ endLocationFocused planningScreen = false
  /\ (exists s', step (E := sampleCampus) planningScreen
                   (AutocompleteSelect (ofBuilding library))
                 = Some (Normal s')
        /\ startLocation s' = value (ofBuilding library)
        /\ endLocation s' = endLocation planningScreen)
  /\ (exists s', step (E := sampleCampus) planningScreen
                   (BuildingTap library)
                 = Some (Normal s')
        /\ startLocation s' = value (ofBuilding library)
        /\ endLocation s' = endLocation planningScreen).
Proof.
  split; [exact planningScreen_reachable|]. split; [reflexivity|].
  destruct (selection_goes_to_focused_endpoint (E := sampleCampus)
              planningScreen planningScreen_reachable eq_refl)
    as (Hauto & Htap & _).
  split.
  - exact (Hauto (ofBuilding library)).
  - exact (Htap library).
Defined.

(** * Further properties of the code *)

(** ** Indoor floors *)

Section IndoorProperties.
Variable Number : string -> float.

(** The floor found is the first one with the index. *)
Lemma floorWithIndex_value index floors f :
  floorWithIndex index floors = value f ->
  In f floors
  /\ PrimFloat.eqb (IndoorFloor.index f) index = true
  /\ exists before after,
       floors = (before ++ f :: after)%list
       /\ forall g, In g before ->
            PrimFloat.eqb (IndoorFloor.index g) index = false.
Proof.
  unfold floorWithIndex.
  induction floors as [|g floors IH]; simpl; [discriminate|].
  destruct (PrimFloat.eqb (IndoorFloor.index g) index) eqn:Hg.
  - intros [= <-]. split; [left; reflexivity|]. split; [exact Hg|].
    exists [], floors. split; [reflexivity|]. intros g' [].
  - intros Hf. destruct (IH Hf) as (Hin & Hidx & before & after & -> & Hb).
    split; [right; exact Hin|]. split; [exact Hidx|].
    exists (g :: before), after. split; [reflexivity|].
    intros g' [<- | Hg']; [exact Hg | apply Hb, Hg'].
Qed.

Lemma floorWithIndex_undefined index floors :
  floorWithIndex index floors = undefined
  <-> forall g, In g floors ->
        PrimFloat.eqb (IndoorFloor.index g) index = false.
Proof.
  unfold floorWithIndex.
  induction floors as [|g floors IH]; simpl.
  - split; [intros _ g [] | reflexivity].
  - destruct (PrimFloat.eqb (IndoorFloor.index g) index) eqn:Hg.
    + split; [discriminate|].
      intros Hall. rewrite (Hall g (or_introl eq_refl)) in Hg.
      discriminate Hg.
    + rewrite IH. split.
      * intros Hall g' [<- | Hg']; [exact Hg | apply Hall, Hg'].
      * intros Hall g' Hg'. apply Hall. right. exact Hg'.
Qed.

Lemma floorWithIndex_not_null index floors :
  floorWithIndex index floors <> null.
Proof.
  unfold floorWithIndex.
  destruct (List.filter _ floors); discriminate.
Qed.

(** X1: [onIndoorViewEntry] lists one floor per level of the event, in the
    order and with the indices of the event.  The current floor is [null]
    exactly when the building has no level; otherwise it is the first floor
    whose index is the active level index, and [undefined] when no floor
    has that index. *)
Theorem onIndoorViewEntry_current_floor (buildingInfo : IndoorBuilding) :
  let info := onIndoorViewEntry Number buildingInfo in
  map IndoorFloor.index (floors info)
  = map IndoorLevel.index (levels buildingInfo)
  /\ (currentFloor info = null <-> levels buildingInfo = [])
  /\ (forall f, currentFloor info = value f ->
        In f (floors info)
        /\ PrimFloat.eqb (IndoorFloor.index f)
             (activeLevelIndex buildingInfo) = true
        /\ exists before after,
             floors info = (before ++ f :: after)%list
             /\ forall g, In g before ->
                  PrimFloat.eqb (IndoorFloor.index g)
                    (activeLevelIndex buildingInfo) = false)
  /\ (currentFloor info = undefined <->
        levels buildingInfo <> []
        /\ forall g, In g (floors info) ->
             PrimFloat.eqb (IndoorFloor.index g)
               (activeLevelIndex buildingInfo) = false).
Proof.
  unfold onIndoorViewEntry. simpl.
  split; [rewrite List.map_map; reflexivity|].
  destruct (levels buildingInfo) as [|l ls] eqn:Hl; simpl.
  - split; [split; reflexivity|].
    split; [discriminate|].
    split; [discriminate | intros [Hne _]; contradiction].
  - set (fs := _ :: map _ ls).
    split; [|split].
    + split; [|discriminate].
      intros Hnull. exfalso. exact (floorWithIndex_not_null _ _ Hnull).
    + intros f Hf. exact (floorWithIndex_value _ _ _ Hf).
    + rewrite floorWithIndex_undefined. split.
      * intros Hall. split; [discriminate | exact Hall].
      * intros [_ Hall]. exact Hall.
Qed.

(** X2: [onFloorPickerButtonPress] always sends the pressed index to the
    map and keeps the list of floors; the current floor becomes the first
    floor with the pressed index (no floor listed before it has that
    index), [undefined] (never [null]) when there is none; of two presses
    in a row only the second one counts. *)
Theorem onFloorPickerButtonPress_current_floor
    (index : float) (info : IndoorInformation) :
  let pressed := onFloorPickerButtonPress index info in
  fst pressed = index
  /\ floors (snd pressed) = floors info
  /\ currentFloor (snd pressed) <> null
  /\ (forall f, currentFloor (snd pressed) = value f ->
        In f (floors info)
        /\ PrimFloat.eqb (IndoorFloor.index f) index = true
        /\ exists before after,
             floors info = (before ++ f :: after)%list
             /\ forall g, In g before ->
                  PrimFloat.eqb (IndoorFloor.index g) index = false)
  /\ (currentFloor (snd pressed) = undefined <->
        forall g, In g (floors info) ->
          PrimFloat.eqb (IndoorFloor.index g) index = false)
  /\ (forall earlier,
        snd (onFloorPickerButtonPress index
               (snd (onFloorPickerButtonPress earlier info)))
        = snd pressed).
Proof.
  simpl. split; [reflexivity|]. split; [reflexivity|].
  split; [apply floorWithIndex_not_null|].
  split; [|split].
  - intros f Hf. exact (floorWithIndex_value _ _ _ Hf).
  - apply floorWithIndex_undefined.
  - reflexivity.
Qed.

(** X3: whatever indoor events and floor-picker presses occurred, a current
    floor that is an object is one of the listed floors, and the current
    floor is [null] only while no floor is listed. *)
Theorem indoor_current_floor_listed (info : IndoorInformation) :
  indoorReachable Number info ->
  (forall f, currentFloor info = value f -> In f (floors info))
  /\ (currentFloor info = null -> floors info = []).
Proof.
  intros Hreach. destruct Hreach as [|info buildingInfo _|info index _].
  - split; [discriminate | reflexivity].
  - unfold onIndoorViewEntry. simpl.
    destruct (levels buildingInfo) as [|l ls]; simpl.
    + split; [discriminate | reflexivity].
    + split.
      * intros f Hf. apply (floorWithIndex_value _ _ _ Hf).
      * intros Hn. exfalso. exact (floorWithIndex_not_null _ _ Hn).
  - simpl. split.
    + intros f Hf. apply (floorWithIndex_value _ _ _ Hf).
    + intros Hn. exfalso. exact (floorWithIndex_not_null _ _ Hn).
Qed.

End IndoorProperties.

Lemma onIndoorViewEntry_current_floor_witness :
  currentFloor (onIndoorViewEntry sampleNumber sampleIndoorBuilding)
  = value {| IndoorFloor.level := 2%float; IndoorFloor.index := 1%float |}
  /\ In {| IndoorFloor.level := 2%float; IndoorFloor.index := 1%float |}
       (floors (onIndoorViewEntry sampleNumber sampleIndoorBuilding))
  /\ currentFloor
       (onIndoorViewEntry sampleNumber
          {| levels := []; activeLevelIndex := 1%float |})
     = null.
Proof.
  destruct (onIndoorViewEntry_current_floor sampleNumber
              sampleIndoorBuilding) as (_ & _ & Hvalue & _).
  destruct (onIndoorViewEntry_current_floor sampleNumber
              {| levels := []; activeLevelIndex := 1%float |})
    as (_ & Hnull & _).
  split; [reflexivity|].
  split; [apply (Hvalue _ eq_refl) | apply Hnull; reflexivity].
Defined.

Lemma onFloorPickerButtonPress_current_floor_witness :
  let info := onIndoorViewEntry sampleNumber sampleIndoorBuilding in
  In {| IndoorFloor.level := 1%float; IndoorFloor.index := 2%float |}
    (floors info)
  /\ currentFloor (snd (onFloorPickerButtonPress 7%float info)) = undefined.
Proof.
  intros info.
  destruct (onFloorPickerButtonPress_current_floor 2%float info)
    as (_ & _ & _ & Hvalue & _).
  destruct (onFloorPickerButtonPress_current_floor 7%float info)
    as (_ & _ & _ & _ & Hundef & _).
  split; [apply (Hvalue _ eq_refl)|].
  apply Hundef. intros g Hg. simpl in Hg.
  destruct Hg as [<- | [<- | [<- | []]]]; reflexivity.
Defined.

Lemma indoor_current_floor_listed_witness :
  let info :=
    snd (onFloorPickerButtonPress 0%float
           (onIndoorViewEntry sampleNumber sampleIndoorBuilding)) in
  indoorReachable sampleNumber info
  /\ In {| IndoorFloor.level := 3%float; IndoorFloor.index := 0%float |}
       (floors info).
Proof.
  intros info.
  assert (Hreach : indoorReachable sampleNumber info).
  { apply indoor_pick.
    apply (indoor_entry sampleNumber initialIndoorInformation).
    apply indoor_initial. }
  split; [exact Hreach|].
  apply (indoor_current_floor_listed sampleNumber info Hreach).
  reflexivity.
Defined.

(** ** The omnibox: local state *)

Section OmniboxLocalProperties.
Context {E : Externals}.

(** X4: the state after a change of the time picker depends only on the
    last change: a picked date is stored and clears [dateIsNow], the text
    and result slots are kept, and the picker stays open exactly on iOS, so
    on any other platform every change closes it. *)
Theorem onDateChange_last_change_wins
    (now later : Date) (first second : option Date) (o : Omnibox) :
  onDateChange later second (onDateChange now first o)
  = onDateChange later second o
  /\ (forall picked, first = Some picked ->
        date (onDateChange now first o) = picked
        /\ dateIsNow (onDateChange now first o) = false)
  /\ endLocationDisplay (onDateChange now first o) = endLocationDisplay o
  /\ startLocationSearchResults (onDateChange now first o)
     = startLocationSearchResults o
  /\ endLocationSearchResults (onDateChange now first o)
     = endLocationSearchResults o
  /\ (showTimePicker (onDateChange now first o) = true
      <-> PlatformOS = "ios")
  /\ (PlatformOS <> "ios" ->
      showTimePicker (onDateChange now first (timePickerButtonOnPress o))
      = false).
Proof.
  split; [destruct first, second; reflexivity|].
  split; [intros picked ->; split; reflexivity|].
  split; [destruct first; reflexivity|].
  split; [destruct first; reflexivity|].
  split; [destruct first; reflexivity|].
  split.
  - destruct first; simpl; apply String.eqb_eq.
  - intros Hne. apply String.eqb_neq in Hne.
    destruct first; simpl; exact Hne.
Qed.

(** X5: whenever [Autocomplete] is rendered its [searchResults] prop is an
    array, never [null]: the start results when that slot is an array
    (also an empty one), the end results otherwise; without results in
    either slot, or with both display texts empty, it is not rendered. *)
Theorem autocomplete_results_never_null (props : Screen) (o : Omnibox) :
  (autocompleteShown props o = true ->
     exists results,
       autocompleteSearchResults o = Some results
       /\ (startLocationSearchResults o = Some results
           \/ (startLocationSearchResults o = None
               /\ endLocationSearchResults o = Some results
               /\ endLocationDisplay o <> "")))
  /\ (startLocationSearchResults o = None ->
      endLocationSearchResults o = None ->
      autocompleteShown props o = false)
  /\ (startLocationDisplay props = "" -> endLocationDisplay o = "" ->
      autocompleteShown props o = false).
Proof.
  unfold autocompleteShown, autocompleteSearchResults, truthyArray.
  split; [|split].
  - destruct (startLocationSearchResults o) as [starts|].
    + intros _. exists starts. split; [reflexivity | left; reflexivity].
    + destruct (endLocationSearchResults o) as [ends|]; simpl;
        [|discriminate].
      intros Hshown. exists ends. split; [reflexivity|]. right.
      split; [reflexivity|]. split; [reflexivity|].
      apply String.eqb_neq. apply negb_true_iff. exact Hshown.
  - intros -> ->. reflexivity.
  - intros -> ->. simpl. rewrite !andb_false_r. reflexivity.
Qed.

(** X6: the effect on [endLocation] and the blur of the destination input
    agree whenever they exist, that is while the end endpoint is set: both
    show its name and drop the end results, and each makes the other a
    no-op; the name they show is the one the omnibox mounts with.  A render
    whose end endpoint is not an object throws before either closure is
    created. *)
Theorem endLocation_display_sync (props : Screen) (o : Omnibox) :
  (forall m, endLocation props = value m ->
     endLocationOnBlur props o = endLocationEffect props o
     /\ endLocationOnBlur props (endLocationEffect props o)
        = endLocationEffect props o
     /\ endLocationEffect props (endLocationOnBlur props o)
        = endLocationEffect props o
     /\ endLocationDisplay (endLocationEffect props o) = displayName m
     /\ endLocationSearchResults (endLocationEffect props o) = None
     /\ forall now, exists mounted,
          mountOmniboxDirections now props = Normal mounted
          /\ endLocationDisplay mounted = displayName m)
  /\ (truthy (endLocation props) = false ->
      forall now mounted,
        useOmniboxState now props mounted = Throw TypeError).
Proof.
  unfold endLocationOnBlur, endLocationEffect, mountOmniboxDirections,
    useOmniboxState, readDisplayName.
  split.
  - intros m ->. simpl. do 5 (split; [reflexivity|]).
    intros now. eexists. split; reflexivity.
  - destruct (endLocation props); try discriminate; reflexivity.
Qed.

(** X7: once the effect of an endpoint change (or the blur of its input)
    has run, the results of that field are gone, so [Autocomplete] is no
    longer rendered unless the other field still holds results. *)
Theorem autocomplete_closes_after_selection
    (props before : Screen) (o : Omnibox) :
  endLocationSearchResults (endLocationEffect before o) = None
  /\ endLocationSearchResults (endLocationOnBlur before o) = None
  /\ startLocationSearchResults (clearStartLocationSearchResults o) = None
  /\ (startLocationSearchResults o = None ->
      autocompleteShown props (endLocationEffect before o) = false
      /\ autocompleteShown props (endLocationOnBlur before o) = false)
  /\ (endLocationSearchResults o = None ->
      autocompleteShown props (clearStartLocationSearchResults o) = false).
Proof.
  unfold autocompleteShown, truthyArray. simpl.
  split; [reflexivity|]. split; [reflexivity|]. split; [reflexivity|].
  split.
  - intros ->. split; reflexivity.
  - intros ->. reflexivity.
Qed.

End OmniboxLocalProperties.

Lemma onDateChange_last_change_wins_witness :
  date (onDateChange (E := sampleCampus) 5000%Z (Some 7000%Z) mountedOmnibox)
  = 7000%Z
  /\ showTimePicker
       (onDateChange (E := sampleCampus) 5000%Z (Some 7000%Z)
          (timePickerButtonOnPress mountedOmnibox))
     = false.
Proof.
  destruct (onDateChange_last_change_wins (E := sampleCampus)
              5000%Z 6000%Z (Some 7000%Z) None mountedOmnibox)
    as (_ & Hpicked & _ & _ & _ & _ & Hclosed).
  split; [apply (Hpicked 7000%Z eq_refl)|].
  apply Hclosed. discriminate.
Defined.

Lemma autocomplete_results_never_null_witness :
  autocompleteShown planningScreen searchingOmnibox = true
  /\ exists results,
       autocompleteSearchResults searchingOmnibox = Some results.
Proof.
  split; [reflexivity|].
  destruct (autocomplete_results_never_null planningScreen searchingOmnibox)
    as (Hshown & _).
  destruct (Hshown eq_refl) as (results & Hres & _).
  exists results. exact Hres.
Defined.

Lemma endLocation_display_sync_witness :
  endLocationDisplay (endLocationEffect planningScreen searchingOmnibox)
  = "Cafe"
  /\ endLocationOnBlur planningScreen searchingOmnibox
     = endLocationEffect planningScreen searchingOmnibox
  /\ useOmniboxState 1000%Z (setEndLocation null planningScreen)
       (Some searchingOmnibox)
     = Throw TypeError.
Proof.
  destruct (endLocation_display_sync planningScreen searchingOmnibox)
    as (Hset & _).
  destruct (Hset (ofPOI cafe) eq_refl) as (Hsame & _ & _ & Hname & _).
  destruct (endLocation_display_sync (setEndLocation null planningScreen)
              searchingOmnibox) as (_ & Hthrow).
  split; [exact Hname|]. split; [exact Hsame|].
  apply Hthrow. reflexivity.
Defined.

Lemma autocomplete_closes_after_selection_witness :
  autocompleteShown planningScreen searchingOmnibox = true
  /\ autocompleteShown planningScreen
       (endLocationEffect planningScreen searchingOmnibox)
     = false.
Proof.
  split; [reflexivity|].
  destruct (autocomplete_closes_after_selection planningScreen
              planningScreen searchingOmnibox) as (_ & _ & _ & Hend & _).
  apply Hend. reflexivity.
Defined.

(** ** The screen: panel, lookups and planning *)

Section ScreenProperties.
Context {E : Externals}.

Ltac invert_step Hstep :=
  unfold step, dispatch, handler in Hstep;
  repeat match type of Hstep with
         | context [if ?c then _ else _] => destruct c eqn:?
         | context [match ?l !! ?n with _ => _ end] => destruct (l !! n) eqn:?
         end;
  try discriminate Hstep;
  injection Hstep as Hstep; try apply render_Normal in Hstep; subst.

(** A tap records the tapped building, whatever the closure saw. *)
Lemma onBuildingTap_panel r b s :
  tappedBuilding (onBuildingTap r b s) = Some (Building.id b)
  /\ (Render.travelState r = NONE ->
      showBuildingInfo (onBuildingTap r b s) = true
      /\ endLocation (onBuildingTap r b s) = endLocation s
      /\ startLocation (onBuildingTap r b s) = startLocation s).
Proof.
  unfold onBuildingTap, setBuildingMarkerLocation.
  destruct (Render.travelState r), (Render.endLocationFocused r);
    run_update; split; try reflexivity; try discriminate;
    intros _; repeat split.
Qed.

(** What a settled lookup does to the panel slots and to the end
    endpoint. *)
Lemma setStartLocationBuilding_panel r coordinates s :
  let s' := setStartLocationBuilding r coordinates s in
  match List.find (fun b => contains coordinates b) Buildings with
  | Some b =>
      tappedBuilding s' = Some (Building.id b)
      /\ startLocation s' = value (buildingToMarker b)
      /\ (Render.travelState r = NONE ->
          showBuildingInfo s' = true /\ endLocation s' = endLocation s)
  | None =>
      tappedBuilding s' = tappedBuilding s
      /\ showBuildingInfo s' = showBuildingInfo s
      /\ endLocation s' = endLocation s
  end.
Proof.
  unfold setStartLocationBuilding, contains.
  destruct (List.find _ Buildings) as [b|]; [|repeat split].
  unfold seq. simpl.
  destruct (onBuildingTap_panel r b s) as (Htapped & Hnone).
  split; [exact Htapped|]. split; [reflexivity|].
  intros Hr. destruct (Hnone Hr) as (Hshow & Hend & _).
  split; assumption.
Qed.

(** X8: the close button of the information panel exists exactly in state
    NONE; pressing it clears the visibility flag and the tapped building,
    so the panel is off screen, and changes no other slot; it undoes what a
    tap in state NONE did to these two slots. *)
Theorem onClosePanel_clears_panel (s : Screen) :
  (travelState s = NONE ->
     exists s', step s ClosePanelPress = Some (Normal s')
       /\ showBuildingInfo s' = false
       /\ tappedBuilding s' = None
       /\ panelVisible s' = false
       /\ s' = setTappedBuilding None (setShowBuildingInfo false s))
  /\ (travelState s <> NONE -> step s ClosePanelPress = None)
  /\ (forall B, travelState s = NONE ->
        onClosePanel (onBuildingTap (rendered s) B s) = onClosePanel s)
  /\ onClosePanel (onClosePanel s) = onClosePanel s.
Proof.
  split; [|split; [|split]].
  - intros Hts. exists (onClosePanel s).
    split; [|repeat split; apply andb_false_r].
    apply step_dispatch.
    + unfold dispatch, handler, panelRendered. rewrite Hts. reflexivity.
    + apply render_hidden. unfold omniboxShown. simpl. rewrite Hts.
      reflexivity.
  - intros Hts. unfold step, dispatch, handler, panelRendered.
    rewrite bool_decide_eq_false_2 by exact Hts. reflexivity.
  - intros B Hts.
    unfold onBuildingTap, setBuildingMarkerLocation, rendered. simpl.
    rewrite Hts. reflexivity.
  - reflexivity.
Qed.

(** The last render the callback commits shows the state it leaves. *)
Lemma onLocationResolved_last_commit r coords s :
  List.last (commits (onLocationResolvedSetters r coords) s) s
  = onLocationResolved r coords s.
Proof.
  unfold onLocationResolvedSetters, onLocationResolved,
    setStartLocationBuilding, onBuildingTap, setBuildingMarkerLocation, seq,
    skip.
  destruct (List.find _ Buildings) as [b|]; [|reflexivity].
  destruct (Render.travelState r), (Render.endLocationFocused r);
    reflexivity.
Qed.

(** X9: between events a set visibility flag comes with a tapped building:
    the information panel is not left flagged visible without a building to
    show.  The renders committed while a promise callback runs do not keep
    this: when a lookup resolves inside a building, the callback sets the
    flag in one commit and the tapped building in the next, so if no
    building was tapped before, a render with the flag set and
    [tappedBuilding] null is committed on the way. *)
Theorem panel_flag_implies_tappedBuilding (s : Screen) :
  reachable s ->
  (showBuildingInfo s = true -> tappedBuilding s <> None)
  /\ (forall n r coords b rest,
        pendingLookups s !! n = Some r ->
        filter (fun b => contains coords b = true) Buildings = b :: rest ->
        tappedBuilding s = None ->
        exists s',
          committed s'
          /\ showBuildingInfo s' = true
          /\ tappedBuilding s' = None).
Proof.
  intros Hreach. split.
  - induction Hreach as [|s e s' _ IH Hstep].
    + discriminate.
    + destruct e; invert_step Hstep.
      * intros _. rewrite (proj1 (onBuildingTap_panel (rendered s) b s)).
        discriminate.
      * unfold onPOIMarkerPress.
        destruct (Render.endLocationFocused _); [|exact IH].
        destruct (Render.travelState _); exact IH.
      * discriminate.
      * exact IH.
      * exact IH.
      * exact IH.
      * exact IH.
      * exact IH.
      * unfold startLocationOnBlur. destruct (startLocation s); exact IH.
      * exact IH.
      * unfold autocompleteSetLocation.
        destruct (Render.endLocationFocused _); exact IH.
      * unfold startLocationEffect.
        destruct (startLocation s); try exact IH;
          destruct (String.eqb _ _); exact IH.
      * exact IH.
      * unfold seq, onLocationResolved, seq.
        match goal with
        | |- context [setStartLocationBuilding ?r ?c ?x] =>
            pose proof (setStartLocationBuilding_panel r c x) as Hpanel
        end.
        simpl in Hpanel.
        destruct (List.find _ Buildings) as [b|].
        -- destruct Hpanel as (-> & _). intros _. discriminate.
        -- destruct Hpanel as (-> & -> & _). exact IH.
      * exact IH.
  - intros n r coords b rest Hn Hin Hnone.
    assert (Hr : Render.travelState r = NONE).
    { apply (pendingLookups_issued_in_NONE s Hreach).
      apply list_elem_of_lookup. exists n. exact Hn. }
    set (s0 := setPendingLookups (delete n (pendingLookups s)) s).
    exists (setShowBuildingInfo true (setCurrentLocation (Some coords) s0)).
    split; [|split; [reflexivity | exact Hnone]].
    apply (committed_resolving s n r coords); [exact Hreach | exact Hn|].
    fold s0. unfold onLocationResolvedSetters.
    assert (Hfind : List.find
              (fun building =>
                 isPointInPolygon coords (Building.boundingBox building))
              Buildings = Some b).
    { rewrite find_head_filter. unfold contains in Hin. rewrite Hin.
      reflexivity. }
    rewrite Hfind, Hr. simpl. right. left. reflexivity.
Qed.

(** X10: a lookup is only ever issued by a render in state NONE.  So when
    it settles, however late, its callback takes the NONE branch of
    [onBuildingTap]: it never writes the end endpoint, the travel state or
    the focus. *)
Theorem lookup_issued_in_NONE (s : Screen) (n : nat) (r : Render.t) :
  reachable s -> pendingLookups s !! n = Some r ->
  Render.travelState r = NONE
  /\ forall coords,
       exists s', step s (LocationResolved n coords) = Some (Normal s')
         /\ endLocation s' = endLocation s
         /\ travelState s' = travelState s
         /\ endLocationFocused s' = endLocationFocused s
         /\ pendingLookups s' = delete n (pendingLookups s).
Proof.
  intros Hreach Hn.
  assert (Hnone : Render.travelState r = NONE).
  { apply (pendingLookups_issued_in_NONE s Hreach).
    apply list_elem_of_lookup. exists n. exact Hn. }
  split; [exact Hnone|]. intros coords. eexists.
  split; [apply step_LocationResolved;
            [exact Hn | apply reachable_renders, Hreach]|].
  split;
    [rewrite (resolved_lookup_keeps_endLocation s n r coords Hreach Hn);
     reflexivity|].
  unfold onLocationResolved, seq.
  set (s1 := setCurrentLocation _ _).
  destruct (setStartLocationBuilding_frame r coords s1)
    as (-> & -> & -> & _).
  repeat split.
Qed.

(** X11: when the device is found inside a building, the settled lookup
    also records that building as tapped and sets the visibility flag of
    the information panel, in whatever travel state it arrives.  The panel
    is on screen at once in state NONE, and otherwise as soon as the back
    arrow returns to NONE.  Outside every building the panel slots are
    left alone. *)
Theorem lookup_in_building_opens_panel
    (s : Screen) (n : nat) (r : Render.t) (coords : Location) :
  reachable s -> pendingLookups s !! n = Some r ->
  exists s', step s (LocationResolved n coords) = Some (Normal s')
    /\ (forall b rest,
          filter (fun b => contains coords b = true) Buildings = b :: rest ->
          tappedBuilding s' = Some (Building.id b)
          /\ showBuildingInfo s' = true
          /\ (travelState s = NONE -> panelVisible s' = true)
          /\ (omniboxShown s = true ->
              exists s'', step s' BackArrowPress = Some (Normal s'')
                /\ panelVisible s'' = true
                /\ tappedBuilding s'' = Some (Building.id b)))
    /\ (filter (fun b => contains coords b = true) Buildings = [] ->
          tappedBuilding s' = tappedBuilding s
          /\ showBuildingInfo s' = showBuildingInfo s).
Proof.
  intros Hreach Hn.
  assert (Hnone : Render.travelState r = NONE).
  { apply (pendingLookups_issued_in_NONE s Hreach).
    apply list_elem_of_lookup. exists n. exact Hn. }
  eexists.
  split; [apply step_LocationResolved;
            [exact Hn | apply reachable_renders, Hreach]|].
  unfold onLocationResolved, seq.
  set (s1 := setCurrentLocation _ _).
  pose proof (setStartLocationBuilding_panel r coords s1) as Hpanel.
  destruct (setStartLocationBuilding_frame r coords s1) as (Hts & _).
  simpl in Hpanel. unfold contains in Hpanel.
  rewrite find_head_filter in Hpanel.
  split.
  - intros b rest Hin. unfold contains in Hin. rewrite Hin in Hpanel.
    simpl in Hpanel. destruct Hpanel as (Htapped & _ & Hshow).
    destruct (Hshow Hnone) as (Hflag & _).
    split; [exact Htapped|]. split; [exact Hflag|]. split.
    + intros HN. unfold panelVisible, panelRendered.
      rewrite Hts, Hflag. simpl. rewrite HN. reflexivity.
    + intros Hshown. eexists. split.
      * apply step_dispatch.
        -- unfold dispatch, handler, omniboxShown. rewrite Hts.
           unfold omniboxShown in Hshown. simpl. rewrite Hshown.
           reflexivity.
        -- apply render_hidden. reflexivity.
      * split; [|exact Htapped].
        unfold panelVisible, panelRendered, backArrowOnPress. run_update.
        exact Hflag.
  - intros Hin. unfold contains in Hin. rewrite Hin in Hpanel.
    simpl in Hpanel. destruct Hpanel as (Htapped & Hflag & _).
    split; assumption.
Qed.

End ScreenProperties.

Section PlanningProperties.
Context {E : Externals}.

(** A callback whose closure saw NONE leaves the end endpoint alone. *)
Lemma setStartLocationBuilding_NONE_endLocation r coords s :
  Render.travelState r = NONE ->
  endLocation (setStartLocationBuilding r coords s) = endLocation s.
Proof.
  intros Hnone.
  unfold setStartLocationBuilding, onBuildingTap, setBuildingMarkerLocation,
    seq.
  rewrite Hnone. destruct (List.find _ Buildings); reflexivity.
Qed.

(** X12: planning a trip from the plain screen.  A press on a POI in state
    NONE with the end field focused enters PLANNING with the POI as end
    endpoint, shows the fetching placeholder and issues one lookup; when
    that lookup delivers C the start endpoint is resolved from C and the
    end endpoint is still the POI; the effect on the start endpoint then
    shows its name. *)
Theorem planning_from_POI_press
    (s : Screen) (poi : POI.t) (C : Location) :
  travelState s = NONE -> endLocationFocused s = true ->
  exists s1 s2 s3,
    step s (POIMarkerPress (Some poi)) = Some (Normal s1)
    /\ travelState s1 = PLANNING
    /\ endLocation s1 = value (ofPOI poi)
    /\ startLocation s1 = startLocation s
    /\ startLocationDisplay s1 = FETCHING_CURRENT_LOCATION_DISPLAY_TEXT
    /\ pendingLookups s1 = (pendingLookups s ++ [rendered s])%list
    /\ step s1 (LocationResolved (length (pendingLookups s)) C)
       = Some (Normal s2)
    /\ startLocation s2 = value (resolveStart C)
    /\ endLocation s2 = value (ofPOI poi)
    /\ currentLocation s2 = Some C
    /\ travelState s2 = PLANNING
    /\ pendingLookups s2 = pendingLookups s
    /\ step s2 StartLocationChanged = Some (Normal s3)
    /\ startLocationDisplay s3 = displayName (resolveStart C)
    /\ startLocation s3 = value (resolveStart C)
    /\ endLocation s3 = value (ofPOI poi).
Proof.
  intros Hts Hfocus.
  set (s1 := onPOIMarkerPress (rendered s) (Some poi) s).
  assert (Hs1 : s1 = setEndLocation (value (ofPOI poi))
                       (setPendingLookups (pendingLookups s ++ [rendered s])
                          (setStartLocationDisplay
                             FETCHING_CURRENT_LOCATION_DISPLAY_TEXT
                             (setTravelState PLANNING s)))).
  { subst s1. unfold onPOIMarkerPress, rendered. simpl.
    rewrite Hfocus, Hts. reflexivity. }
  assert (Hnone : Render.travelState (rendered s) = NONE) by exact Hts.
  assert (Hlook : pendingLookups s1 !! length (pendingLookups s)
                  = Some (rendered s)).
  { rewrite Hs1. simpl. apply list_lookup_middle. reflexivity. }
  assert (Hrender1 : render s1 = Normal s1).
  { rewrite Hs1. reflexivity. }
  set (s2 := onLocationResolved (rendered s) C
               (setPendingLookups
                  (delete (length (pendingLookups s)) (pendingLookups s1))
                  s1)).
  assert (Hstart2 : startLocation s2 = value (resolveStart C)).
  { subst s2. unfold onLocationResolved, seq.
    apply setStartLocationBuilding_start. }
  assert (Hend2 : endLocation s2 = value (ofPOI poi)).
  { subst s2. unfold onLocationResolved, seq.
    rewrite setStartLocationBuilding_NONE_endLocation by exact Hnone.
    rewrite Hs1. reflexivity. }
  assert (Hframe2 : travelState s2 = PLANNING
                    /\ pendingLookups s2 = pendingLookups s
                    /\ currentLocation s2 = Some C).
  { subst s2. unfold onLocationResolved, seq.
    set (s0 := setCurrentLocation _ _).
    destruct (setStartLocationBuilding_frame (rendered s) C s0)
      as (-> & _ & -> & -> & _).
    subst s0. rewrite Hs1. simpl.
    split; [reflexivity|]. split; [|reflexivity].
    rewrite (delete_middle (pendingLookups s) [] (rendered s)).
    apply app_nil_r. }
  destruct Hframe2 as (Hts2 & Hpending2 & Hcurrent2).
  exists s1, s2, (startLocationEffect s2).
  split; [apply step_dispatch; [reflexivity | exact Hrender1]|].
  rewrite Hs1 at 1 2 3 4 5. simpl.
  do 5 (split; [reflexivity|]).
  split; [apply step_LocationResolved; assumption|].
  split; [exact Hstart2|]. split; [exact Hend2|].
  split; [exact Hcurrent2|]. split; [exact Hts2|].
  split; [exact Hpending2|].
  assert (Heffect : startLocationEffect s2
                    = setStartLocationDisplay
                        (displayName (resolveStart C)) s2).
  { unfold startLocationEffect. rewrite Hstart2. reflexivity. }
  split; [|split].
  - apply step_dispatch.
    + unfold dispatch, handler, omniboxShown. rewrite Hts2. reflexivity.
    + rewrite Heffect. apply render_Normal_iff. intros _. simpl.
      rewrite Hend2. reflexivity.
  - rewrite Heffect. reflexivity.
  - rewrite Heffect. simpl. split; assumption.
Qed.

(** X13: while the omnibox is shown a POI press never issues a lookup and
    leaves the start text alone.  With the end field focused it sets the
    end endpoint and the travel state PLANNING, so a press made while
    TRAVELLING falls back to PLANNING; with the start field focused it sets
    the start endpoint and keeps the travel state. *)
Theorem onPOIMarkerPress_while_omnibox_shown (s : Screen) (poi : POI.t) :
  omniboxShown s = true -> render s = Normal s ->
  exists s', step s (POIMarkerPress (Some poi)) = Some (Normal s')
    /\ pendingLookups s' = pendingLookups s
    /\ startLocationDisplay s' = startLocationDisplay s
    /\ (endLocationFocused s = true ->
        travelState s' = PLANNING
        /\ endLocation s' = value (ofPOI poi)
        /\ startLocation s' = startLocation s)
    /\ (endLocationFocused s = false ->
        travelState s' = travelState s
        /\ startLocation s' = value (ofPOI poi)
        /\ endLocation s' = endLocation s).
Proof.
  intros Hshown Hrender.
  apply render_Normal_iff in Hrender; [|exact Hshown].
  exists (onPOIMarkerPress (rendered s) (Some poi) s).
  unfold omniboxShown in Hshown.
  split.
  - apply step_dispatch; [reflexivity|].
    apply render_Normal_iff. intros _.
    unfold onPOIMarkerPress, rendered. simpl.
    destruct (endLocationFocused s); [|exact Hrender].
    destruct (travelState s); reflexivity.
  - unfold onPOIMarkerPress, rendered. simpl.
    destruct (endLocationFocused s), (travelState s) eqn:Hts;
      try discriminate Hshown; simpl;
      (split; [reflexivity|]); (split; [reflexivity|]);
      split; intros Hf; try discriminate Hf; repeat split; exact Hts.
Qed.

(** X14: in every state of the screen in which the omnibox is shown the
    end endpoint is an object and the travel state is PLANNING.  The
    start-travel button needs both endpoints and a [travelState] prop equal
    to PLANNING; [MapScreen] passes the omnibox no such prop, so the button
    is never rendered and the screen never enters TRAVELLING. *)
Theorem omnibox_shown_has_endLocation (s : Screen) :
  reachable s ->
  (omniboxShown s = true ->
     (exists m, endLocation s = value m) /\ travelState s = PLANNING)
  /\ travelState s <> TRAVELLING
  /\ startTravelShown (travelStateProp s) s = false
  /\ step s StartTravelPress = None
  /\ (forall given,
        startTravelShown given s = true <->
        truthy (startLocation s) = true /\ truthy (endLocation s) = true
        /\ given = value PLANNING).
Proof.
  intros Hreach.
  pose proof (proj1 (render_Normal_iff s) (reachable_renders s Hreach))
    as Hrender.
  pose proof (reachable_not_TRAVELLING s Hreach) as Hnot.
  split; [|split; [exact Hnot|split; [|split]]].
  - intros Hshown. specialize (Hrender Hshown). split.
    + destruct (endLocation s) as [| |m]; try discriminate Hrender.
      exists m. reflexivity.
    + unfold omniboxShown in Hshown.
      destruct (travelState s); [discriminate Hshown | reflexivity|].
      contradiction.
  - unfold startTravelShown, travelStateProp. apply andb_false_r.
  - apply step_StartTravelPress.
  - intros given. unfold startTravelShown.
    rewrite !andb_true_iff. split.
    + intros [[Hs He] Hg]. split; [exact Hs|]. split; [exact He|].
      destruct given as [| |[| |]]; try discriminate Hg. reflexivity.
    + intros (Hs & He & ->). repeat split; assumption.
Qed.

(** The three ways the effect on [startLocation] can go. *)
Lemma startLocationEffect_cases (s : Screen) :
  (exists m, startLocation s = value m
     /\ startLocationEffect s = setStartLocationDisplay (displayName m) s)
  \/ (truthy (startLocation s) = false
      /\ startLocationDisplay s = FETCHING_CURRENT_LOCATION_DISPLAY_TEXT
      /\ startLocationEffect s = s)
  \/ (truthy (startLocation s) = false
      /\ startLocationDisplay s <> FETCHING_CURRENT_LOCATION_DISPLAY_TEXT
      /\ startLocationEffect s = setStartLocationDisplay "" s).
Proof.
  unfold startLocationEffect.
  destruct (startLocation s) as [| |m].
  3: { left. exists m. split; reflexivity. }
  all: right;
    destruct (String.eqb (startLocationDisplay s)
                FETCHING_CURRENT_LOCATION_DISPLAY_TEXT) eqn:Hd;
    [ left; apply String.eqb_eq in Hd
    | right; apply String.eqb_neq in Hd ];
    repeat split; assumption.
Qed.

(** X15: the effect on [startLocation] is idempotent, keeps the fetching
    placeholder while no start endpoint is set, and shows the name of the
    start endpoint once it is set; after it the blur of the start input and
    a further run change nothing. *)
Theorem startLocationEffect_idempotent (s : Screen) :
  startLocationEffect (startLocationEffect s) = startLocationEffect s
  /\ startLocationOnBlur (startLocationEffect s) = startLocationEffect s
  /\ (truthy (startLocation s) = false ->
      startLocationDisplay s = FETCHING_CURRENT_LOCATION_DISPLAY_TEXT ->
      startLocationEffect s = s)
  /\ (truthy (startLocation s) = false ->
      startLocationDisplay s <> FETCHING_CURRENT_LOCATION_DISPLAY_TEXT ->
      startLocationDisplay (startLocationEffect s) = "")
  /\ (forall m, startLocation s = value m ->
      startLocationDisplay (startLocationEffect s) = displayName m)
  /\ startLocation (startLocationEffect s) = startLocation s
  /\ endLocation (startLocationEffect s) = endLocation s
  /\ travelState (startLocationEffect s) = travelState s.
Proof.
  destruct (startLocationEffect_cases s)
    as [(m & Hstart & ->) | [(Hnot & Hd & Heff) | (Hnot & Hd & ->)]].
  - split; [|split].
    + unfold startLocationEffect. simpl. rewrite Hstart. reflexivity.
    + unfold startLocationOnBlur. simpl. rewrite Hstart. reflexivity.
    + rewrite Hstart. split; [discriminate|]. split; [discriminate|].
      split; [intros m' [= <-]; reflexivity | repeat split; exact Hstart].
  - rewrite !Heff.
    split; [reflexivity|]. split.
    { unfold startLocationOnBlur.
      destruct (startLocation s); try discriminate Hnot; reflexivity. }
    split; [intros _ _; reflexivity|].
    split; [intros _ Hne; contradiction|].
    split; [|repeat split].
    intros m Hm. rewrite Hm in Hnot. discriminate Hnot.
  - split; [|split].
    + unfold startLocationEffect. simpl.
      destruct (startLocation s); try discriminate Hnot;
        destruct FETCHING_CURRENT_LOCATION_DISPLAY_TEXT; reflexivity.
    + unfold startLocationOnBlur. simpl.
      destruct (startLocation s); try discriminate Hnot; reflexivity.
    + split; [intros _ Heq; contradiction|].
      split; [intros _ _; reflexivity|].
      split; [|repeat split].
      intros m Hm. rewrite Hm in Hnot. discriminate Hnot.
Qed.

(** X16: the back arrow cancels no lookup and does not reset the start
    text.  A lookup that settles after the press still stores the current
    location and resolves the start endpoint, although the travel state is
    NONE by then. *)
Theorem lookup_survives_back_press
    (s : Screen) (n : nat) (r : Render.t) (C : Location) :
  omniboxShown s = true -> pendingLookups s !! n = Some r ->
  exists s1 s2,
    step s BackArrowPress = Some (Normal s1)
    /\ pendingLookups s1 = pendingLookups s
    /\ startLocationDisplay s1 = startLocationDisplay s
    /\ startLocation s1 = null
    /\ step s1 (LocationResolved n C) = Some (Normal s2)
    /\ travelState s2 = NONE
    /\ startLocation s2 = value (resolveStart C)
    /\ currentLocation s2 = Some C.
Proof.
  intros Hshown Hn.
  set (s1 := backArrowOnPress s).
  assert (Hrender1 : render s1 = Normal s1) by reflexivity.
  exists s1. eexists.
  split; [apply step_dispatch;
            [unfold dispatch, handler; rewrite Hshown; reflexivity
            | exact Hrender1]|].
  do 3 (split; [reflexivity|]).
  split; [apply step_LocationResolved; [exact Hn | exact Hrender1]|].
  unfold onLocationResolved, seq.
  set (s0 := setCurrentLocation _ _).
  destruct (setStartLocationBuilding_frame r C s0) as (-> & _ & _ & -> & _).
  split; [reflexivity|].
  split; [apply setStartLocationBuilding_start | reflexivity].
Qed.

End PlanningProperties.

Lemma awaitingScreen_reachable : reachable (E := sampleCampus) awaitingScreen.
Proof.
  apply (reachable_step (E := sampleCampus) initialScreen
           (POIMarkerPress (Some cafe))).
  - apply reachable_initial.
  - vm_compute. reflexivity.
Qed.

Lemma onClosePanel_clears_panel_witness :
  let tapped :=
    onBuildingTap (rendered initialScreen) hall initialScreen in
  panelVisible tapped = true
  /\ step (E := sampleCampus) tapped ClosePanelPress
     = Some (Normal initialScreen)
  /\ step (E := sampleCampus) planningScreen ClosePanelPress = None.
Proof.
  intros tapped.
  destruct (onClosePanel_clears_panel (E := sampleCampus) tapped)
    as (Hnone & _).
  destruct (Hnone eq_refl) as (s' & Hstep & _ & _ & _ & Hs').
  destruct (onClosePanel_clears_panel (E := sampleCampus) planningScreen)
    as (_ & Hother & _).
  split; [reflexivity|].
  split; [rewrite Hstep, Hs'; reflexivity | apply Hother; discriminate].
Defined.

Lemma panel_flag_implies_tappedBuilding_witness :
  showBuildingInfo planningScreen = true
  /\ tappedBuilding planningScreen <> None
  /\ tappedBuilding awaitingScreen = None
  /\ exists s',
       committed (E := sampleCampus) s'
       /\ showBuildingInfo s' = true
       /\ tappedBuilding s' = None.
Proof.
  destruct (panel_flag_implies_tappedBuilding (E := sampleCampus)
              planningScreen planningScreen_reachable) as (Hflag & _).
  destruct (panel_flag_implies_tappedBuilding (E := sampleCampus)
              awaitingScreen awaitingScreen_reachable) as (_ & Hcommit).
  split; [reflexivity|]. split; [apply Hflag; reflexivity|].
  split; [reflexivity|].
  apply (Hcommit 0%nat (rendered initialScreen) inLibrary library []);
    [reflexivity | vm_compute; reflexivity | reflexivity].
Defined.

Lemma lookup_issued_in_NONE_witness :
  travelState awaitingScreen = PLANNING
  /\ pendingLookups awaitingScreen !! 0%nat = Some (rendered initialScreen)
  /\ exists s', step (E := sampleCampus) awaitingScreen
                  (LocationResolved 0 inHallAndAnnex)
                = Some (Normal s')
       /\ endLocation s' = value (ofPOI cafe)
       /\ travelState s' = PLANNING.
Proof.
  split; [reflexivity|]. split; [reflexivity|].
  destruct (lookup_issued_in_NONE (E := sampleCampus) awaitingScreen 0
              (rendered initialScreen) awaitingScreen_reachable eq_refl)
    as (_ & Hsettle).
  destruct (Hsettle inHallAndAnnex) as (s' & Hstep & Hend & Hts & _).
  exists s'. split; [exact Hstep|]. split; assumption.
Defined.

Lemma lookup_in_building_opens_panel_witness :
  showBuildingInfo awaitingScreen = false
  /\ exists s' s'',
       step (E := sampleCampus) awaitingScreen
         (LocationResolved 0 inLibrary) = Some (Normal s')
       /\ tappedBuilding s' = Some "LB"
       /\ showBuildingInfo s' = true
       /\ step (E := sampleCampus) s' BackArrowPress = Some (Normal s'')
       /\ panelVisible s'' = true.
Proof.
  split; [reflexivity|].
  destruct (lookup_in_building_opens_panel (E := sampleCampus)
              awaitingScreen 0 (rendered initialScreen) inLibrary
              awaitingScreen_reachable eq_refl)
    as (s' & Hstep & Hinside & _).
  assert (Hfilter :
    filter (fun b => contains (E := sampleCampus) inLibrary b = true)
      (Buildings (Externals := sampleCampus)) = [library])
    by (vm_compute; reflexivity).
  destruct (Hinside library [] Hfilter) as (Htapped & Hflag & _ & Hback).
  destruct (Hback eq_refl) as (s'' & Hstep' & Hvisible & _).
  exists s', s''. repeat split; assumption.
Defined.

Lemma planning_from_POI_press_witness :
  exists s1 s2 s3,
    step (E := sampleCampus) initialScreen (POIMarkerPress (Some cafe))
    = Some (Normal s1)
    /\ step (E := sampleCampus) s1 (LocationResolved 0 inHallOnly)
       = Some (Normal s2)
    /\ startLocation s2 = value (ofBuilding hall)
    /\ endLocation s2 = value (ofPOI cafe)
    /\ step (E := sampleCampus) s2 StartLocationChanged = Some (Normal s3)
    /\ startLocationDisplay s3 = "Henry F. Hall Building".
Proof.
  destruct (planning_from_POI_press (E := sampleCampus) initialScreen cafe
              inHallOnly eq_refl eq_refl)
    as (s1 & s2 & s3 & H1 & _ & _ & _ & _ & _ & H2 & Hstart & Hend & _ & _
        & _ & H3 & Hdisplay & _ & _).
  exists s1, s2, s3.
  split; [exact H1|]. split; [exact H2|].
  split; [rewrite Hstart; vm_compute; reflexivity|].
  split; [exact Hend|]. split; [exact H3|].
  rewrite Hdisplay. vm_compute. reflexivity.
Defined.

Lemma onPOIMarkerPress_while_omnibox_shown_witness :
  let travelling := setEndLocationFocused true travellingScreen in
  travelState travelling = TRAVELLING
  /\ exists s', step (E := sampleCampus) travelling
                  (POIMarkerPress (Some cafe)) = Some (Normal s')
       /\ travelState s' = PLANNING
       /\ pendingLookups s' = [].
Proof.
  intros travelling. split; [reflexivity|].
  destruct (onPOIMarkerPress_while_omnibox_shown (E := sampleCampus)
              travelling cafe eq_refl eq_refl)
    as (s' & Hstep & Hpending & _ & Hend & _).
  destruct (Hend eq_refl) as (Hts & _).
  exists s'. split; [exact Hstep|]. split; [exact Hts | exact Hpending].
Defined.

Lemma omnibox_shown_has_endLocation_witness :
  endLocation planningScreen = value (ofPOI cafe)
  /\ travelState planningScreen = PLANNING
  /\ startTravelShown (value PLANNING) planningScreen = true
  /\ step (E := sampleCampus) planningScreen StartTravelPress = None.
Proof.
  destruct (omnibox_shown_has_endLocation (E := sampleCampus)
              planningScreen planningScreen_reachable)
    as (Hshown & _ & _ & Hpress & Hguard).
  destruct (Hshown eq_refl) as (_ & Hts).
  split; [reflexivity|]. split; [exact Hts|].
  split; [apply Hguard; repeat split | exact Hpress].
Defined.

Lemma startLocationEffect_idempotent_witness :
  startLocationEffect (E := sampleCampus) awaitingScreen = awaitingScreen
  /\ startLocationDisplay
       (startLocationEffect (E := sampleCampus)
          (setStartLocationDisplay "Hen" planningScreen))
     = "Henry F. Hall Building".
Proof.
  destruct (startLocationEffect_idempotent (E := sampleCampus)
              awaitingScreen) as (_ & _ & Hkeep & _).
  destruct (startLocationEffect_idempotent (E := sampleCampus)
              (setStartLocationDisplay "Hen" planningScreen))
    as (_ & _ & _ & _ & Hname & _).
  split; [apply Hkeep; reflexivity|].
  apply (Hname (ofBuilding hall)). reflexivity.
Defined.

Lemma lookup_survives_back_press_witness :
  exists s1 s2,
    step (E := sampleCampus) awaitingScreen BackArrowPress = Some (Normal s1)
    /\ step (E := sampleCampus) s1 (LocationResolved 0 outdoors)
       = Some (Normal s2)
    /\ travelState s2 = NONE
    /\ startLocation s2
       = value (currentLocationMarker (E := sampleCampus) outdoors).
Proof.
  destruct (lookup_survives_back_press (E := sampleCampus) awaitingScreen 0
              (rendered initialScreen) outdoors eq_refl eq_refl)
    as (s1 & s2 & H1 & _ & _ & _ & H2 & Hts & Hstart & _).
  exists s1, s2.
  split; [exact H1|]. split; [exact H2|]. split; [exact Hts|].
  rewrite Hstart. vm_compute. reflexivity.
Defined.
